(** * Azure AD authenticator (oauthenticator/azuread.py)

    A shallow embedding of [AzureAdOAuthenticator]: URL resolution, the
    directory attribute lookup and the authorization-code exchange with
    ID-token decoding, followed by the properties the specification states
    about them.

    Python values are modelled as follows.
    - [str] is [string], read as the UTF-8 bytes of the text.
    - a parsed JSON document is a [json] tree; a [dict] is a [gmap] from
      its keys.
    - a raised exception is the left injection of a sum, a returned value
      the right one.
    - calls that reach the outside (HTTP requests, the log) are recorded in
      a trace that is threaded through the computation; the trace survives
      an exception. *)

From Stdlib Require Import ZArith Ascii String.
From stdpp Require Import gmap strings list fin_maps.

Set Warnings "-register-all".

#[local] Open Scope string_scope.
#[local] Open Scope Z_scope.

(** ** Python values *)

Inductive json : Type :=
  | JNull
  | JBool (b : bool)
  | JInt (z : Z)
  | JReal (mantissa exponent : Z)
  | JStr (s : string)
  | JArr (l : list json)
  | JObj (m : gmap string json).

(** Exceptions raised along the paths of this module. *)
Inductive exn : Type :=
  | ValueError (msg : string)
  | KeyError (key : string)
  | TypeError
  | MissingArgumentError (name : string)
  | HTTPClientError (code : Z)
  | ConnectionRefusedError
  | JSONDecodeError
  | PyJWTError (kind : string).

Definition result (A : Type) : Type := exn + A.

Definition is_ok {A} (r : result A) : bool :=
  match r with inr _ => true | inl _ => false end.

Definition is_error {A} (r : result A) : bool := negb (is_ok r).

(** [d[k]] on a dict. *)
Definition dict_getitem (d : gmap string json) (k : string) : result json :=
  match d !! k with
  | Some v => inr v
  | None => inl (KeyError k)
  end.

(** [v[k]] with a [str] key on an arbitrary parsed value: only a dict can be
    subscripted by a string; a list, a string, a number, [None] raise
    [TypeError]. *)
Definition py_getitem (v : json) (k : string) : result json :=
  match v with
  | JObj d => dict_getitem d k
  | _ => inl TypeError
  end.

(** ** urllib.parse.urlencode

    [urlencode(params, doseq=True, encoding='utf-8', safe='=')] quotes keys
    and values with [quote_plus]. *)

Definition ascii_in (a : ascii) (s : string) : bool :=
  existsb (Ascii.eqb a) (list_ascii_of_string s).

Definition always_safe (a : ascii) : bool :=
  ascii_in a "ABCDEFGHIJKLMNOPQRSTUVWXYZabcdefghijklmnopqrstuvwxyz0123456789_.-~".

Definition hex_digit (n : N) : ascii :=
  match String.get (N.to_nat n) "0123456789ABCDEF" with
  | Some a => a
  | None => "0"%char
  end.

Definition percent_byte (a : ascii) : string :=
  let n := N_of_ascii a in
  String "%" (String (hex_digit (n / 16)) (String (hex_digit (n mod 16)) "")).

Fixpoint quote (safe : string) (s : string) : string :=
  match s with
  | EmptyString => ""
  | String a rest =>
      (if always_safe a || ascii_in a safe then String a "" else percent_byte a)
      ++ quote safe rest
  end.

Fixpoint replace_space_plus (s : string) : string :=
  match s with
  | EmptyString => ""
  | String a rest =>
      String (if Ascii.eqb a " " then "+"%char else a) (replace_space_plus rest)
  end.

Definition quote_plus (safe : string) (s : string) : string :=
  if ascii_in " " s
  then replace_space_plus (quote (safe ++ " ") s)
  else quote safe s.

(** A form value: a string, or a sequence of strings ([doseq=True] emits
    one [k=v] pair per element). *)
Inductive form_value : Type :=
  | FStr (s : string)
  | FSeq (l : list string).

Definition form := list (string * form_value).

Definition urlencode_pairs (safe : string) (p : string * form_value) : list string :=
  let k := quote_plus safe (fst p) in
  match snd p with
  | FStr v => [k ++ "=" ++ quote_plus safe v]
  | FSeq l => List.map (fun elt => k ++ "=" ++ quote_plus safe elt) l
  end.

Fixpoint join (sep : string) (l : list string) : string :=
  match l with
  | [] => ""
  | [x] => x
  | x :: rest => x ++ sep ++ join sep rest
  end.

Definition urlencode (params : form) : string :=
  join "&" (concat (List.map (urlencode_pairs "=") params)).

(** ** Reading a form back

    What the receiving endpoint reads from an
    [application/x-www-form-urlencoded] body: the pieces between [&], each
    split at its first [=], with [+] and [%XX] undone (the reading of
    [urllib.parse.parse_qsl] with blank values kept). *)

Definition hex_value (a : ascii) : option N :=
  let n := N_of_ascii a in
  if ((48 <=? n) && (n <=? 57))%N then Some (n - 48)%N
  else if ((65 <=? n) && (n <=? 70))%N then Some (n - 55)%N
  else if ((97 <=? n) && (n <=? 102))%N then Some (n - 87)%N
  else None.

Fixpoint unquote_plus (s : string) : string :=
  match s with
  | EmptyString => ""
  | String a rest =>
      if Ascii.eqb a "+" then String " " (unquote_plus rest)
      else if Ascii.eqb a "%" then
        match rest with
        | String h (String l rest') =>
            match hex_value h, hex_value l with
            | Some x, Some y => String (ascii_of_N (16 * x + y)) (unquote_plus rest')
            | _, _ => String a (unquote_plus rest)
            end
        | _ => String a (unquote_plus rest)
        end
      else String a (unquote_plus rest)
  end.

(** [s.split(c)]: the first piece and the pieces after it. *)
Fixpoint split_on (c : ascii) (s : string) : string * list string :=
  match s with
  | EmptyString => ("", [])
  | String a rest =>
      let '(piece, pieces) := split_on c rest in
      if Ascii.eqb a c then ("", piece :: pieces) else (String a piece, pieces)
  end.

(** [s.split(c, 1)] when [c] occurs in [s]. *)
Fixpoint split_first (c : ascii) (s : string) : option (string * string) :=
  match s with
  | EmptyString => None
  | String a rest =>
      if Ascii.eqb a c then Some ("", rest)
      else
        match split_first c rest with
        | Some (l, r) => Some (String a l, r)
        | None => None
        end
  end.

Definition decode_pair (piece : string) : list (string * string) :=
  match piece with
  | EmptyString => []
  | _ =>
      match split_first "=" piece with
      | Some (k, v) => [(unquote_plus k, unquote_plus v)]
      | None => [(unquote_plus piece, "")]
      end
  end.

Definition form_decode (body : string) : list (string * string) :=
  let '(piece, pieces) := split_on "&" body in
  concat (List.map decode_pair (piece :: pieces)).

(** The name/value pairs a form stands for. *)
Definition form_fields (params : form) : list (string * string) :=
  concat (List.map (fun p =>
    match snd p with
    | FStr v => [(fst p, v)]
    | FSeq l => List.map (fun elt => (fst p, elt)) l
    end) params).

(** [quote_plus] with [safe='='], byte by byte. *)
Definition plus_byte (a : ascii) : string :=
  if Ascii.eqb a " " then "+"
  else if always_safe a || Ascii.eqb a "=" then String a "" else percent_byte a.

Fixpoint plus_encode (s : string) : string :=
  match s with
  | EmptyString => ""
  | String a rest => plus_byte a ++ plus_encode rest
  end.

Definition encode_pair (p : string * string) : string :=
  plus_encode (fst p) ++ "=" ++ plus_encode (snd p).

(** ** HTTP requests and the outside world *)

Inductive http_method : Type := GET | POST.

Record HTTPRequest : Type := mkRequest {
  req_url : string;
  req_method : http_method;
  req_headers : list (string * string);
  req_body : option string
}.

Record HTTPResponse : Type := mkResponse {
  resp_code : Z;
  resp_body : string
}.

(** What one call of the HTTP client comes to: no response (the client
    raises [e]: a refused connection, a 599 timeout, a [ValueError] for a
    request it cannot write), or the response it ends with, redirects
    followed by the client included, as a status code with a body. *)
Inductive ServerReply : Type :=
  | NoResponse (e : exn)
  | Reply (code : Z) (body : string).

Inductive Event : Type :=
  | EvFetch (req : HTTPRequest) (reply : ServerReply)
  | EvLogWarning (line : string).

Definition World := list Event.

Definition requests_of (w : World) : list HTTPRequest :=
  omap (fun e => match e with EvFetch r _ => Some r | EvLogWarning _ => None end) w.

(** The incoming callback request, as far as this module reads it:
    [get_argument name] is [None] when the query has no such argument. *)
Record Handler : Type := mkHandler {
  handler_arguments : string -> option string
}.

(** Keyword arguments of a [jwt.decode] call. *)
Record jwt_kwargs : Type := mkKwargs {
  kw_options : option (gmap string bool);
  kw_audience : option string;
  kw_verify : option bool
}.

(** The collaborators that live outside this module: the JWT and JSON
    libraries, Python's [repr], the callback URL computed by the OAuth2
    base class, and the remote servers, whose reply may depend on every
    request made so far. *)
Class Runtime : Type := {
  PYJWT_2 : bool;
  jwt_decode : json -> jwt_kwargs -> result (gmap string json);
  json_loads : string -> option json;
  py_repr : json -> string;
  get_callback_url : Handler -> string;
  server : list HTTPRequest -> HTTPRequest -> ServerReply
}.

(** ** Computations: exceptions over a trace *)

Definition M (A : Type) : Type := World -> result A * World.

Definition ret {A} (a : A) : M A := fun w => (inr a, w).

Definition raise {A} (e : exn) : M A := fun w => (inl e, w).

Definition bind {A B} (c : M A) (k : A -> M B) : M B :=
  fun w =>
    match c w with
    | (inr a, w') => k a w'
    | (inl e, w') => (inl e, w')
    end.

Definition lift {A} (r : result A) : M A := fun w => (r, w).

Declare Scope py_scope.
Delimit Scope py_scope with py.
Notation "x <- c ;; k" := (bind c (fun x => k))
  (at level 100, c at next level, right associativity) : py_scope.
Notation "c ;;; k" := (bind c (fun _ => k))
  (at level 100, right associativity) : py_scope.
#[local] Open Scope py_scope.

Definition log_warning (line : string) : M unit :=
  fun w => (inr tt, (w ++ [EvLogWarning line])%list).

(** ** Objects built in place

    [authenticate] builds its result by mutation: the inner dict is linked
    into the outer one while still empty and filled afterwards. Dict objects
    therefore live in a store and are referred to by location; what the
    caller sees at the end is the snapshot of the returned location. *)

Inductive pyval : Type :=
  | VJson (j : json)
  | VRef (l : nat).

Abbreviation Heap := (list (gmap string pyval)).

(** [{...}]: a new dict object. *)
Definition new_dict (d : gmap string pyval) (h : Heap) : nat * Heap :=
  (length h, (h ++ [d])%list).

(** [obj[k] = v] on the dict at location [l]. *)
Definition setitem (l : nat) (k : string) (v : pyval) (h : Heap) : Heap :=
  alter (fun d => <[k := v]> d) l h.

(** The value reachable from [v]. A chain of references longer than [fuel]
    is cut with [JNull]; with [fuel] above the number of cells this only
    happens on a cyclic store, which this module never builds. *)
Fixpoint snapshot (fuel : nat) (h : Heap) (v : pyval) : json :=
  match v with
  | VJson j => j
  | VRef l =>
      match fuel with
      | O => JNull
      | S n =>
          match h !! l with
          | Some d => JObj (snapshot n h <$> d)
          | None => JNull
          end
      end
  end.

Definition read_object (h : Heap) (l : nat) : json :=
  snapshot (S (length h)) h (VRef l).

(** ** The authenticator *)

(** Configurable traits hold [Some v] when set explicitly and [None] when
    the value comes from the [@default] method. [access_token_version] is a
    plain class attribute. *)
Record AzureAdOAuthenticator : Type := mkAuthenticator {
  environ : gmap string string;
  access_token_version : Z;
  client_id : string;
  client_secret : string;
  tenant_id_config : option string;
  username_claim_config : option string;
  authorize_url_config : option string;
  token_url_config : option string
}.

Definition login_service (self : AzureAdOAuthenticator) : string :=
  default "Azure AD" (environ self !! "LOGIN_SERVICE").

Definition _tenant_id_default (self : AzureAdOAuthenticator) : string :=
  default "" (environ self !! "AAD_TENANT_ID").

Definition tenant_id (self : AzureAdOAuthenticator) : string :=
  default (_tenant_id_default self) (tenant_id_config self).

Definition _username_claim_default (self : AzureAdOAuthenticator) : string :=
  "name".

Definition username_claim (self : AzureAdOAuthenticator) : string :=
  default (_username_claim_default self) (username_claim_config self).

Definition _authorize_url_default (self : AzureAdOAuthenticator) : result string :=
  if access_token_version self =? 1 then
    inr ("https://login.microsoftonline.com/" ++ tenant_id self ++ "/oauth2/authorize")
  else if access_token_version self =? 2 then
    inr ("https://login.microsoftonline.com/" ++ tenant_id self ++ "/oauth2/v2.0/authorize")
  else
    inl (ValueError "Invalid token version!").

Definition _token_url_default (self : AzureAdOAuthenticator) : result string :=
  if access_token_version self =? 1 then
    inr ("https://login.microsoftonline.com/" ++ tenant_id self ++ "/oauth2/token")
  else if access_token_version self =? 2 then
    inr ("https://login.microsoftonline.com/" ++ tenant_id self ++ "/oauth2/v2.0/token")
  else
    inl (ValueError "Invalid token version!").

(** Reading a trait: the configured value, else the default method, whose
    exception reaches the reader. *)
Definition trait {A} (configured : option A) (dflt : result A) : result A :=
  match configured with
  | Some v => inr v
  | None => dflt
  end.

Definition authorize_url (self : AzureAdOAuthenticator) : result string :=
  trait (authorize_url_config self) (_authorize_url_default self).

Definition token_url (self : AzureAdOAuthenticator) : result string :=
  trait (token_url_config self) (_token_url_default self).

Section Operations.

Context `{RT : Runtime}.

(** [handler.get_argument(name)] without a default. *)
Definition get_argument (handler : Handler) (name : string) : result string :=
  match handler_arguments handler name with
  | Some v => inr v
  | None => inl (MissingArgumentError name)
  end.

(** [json.loads(body.decode('utf8', 'replace'))]. *)
Definition loads (body : string) : result json :=
  match json_loads body with
  | Some v => inr v
  | None => inl JSONDecodeError
  end.

(** [str.format] / f-string interpolation of a parsed value: a [str] is
    inserted as it is, anything else through its [repr]. *)
Definition py_format (v : json) : string :=
  match v with
  | JStr s => s
  | _ => py_repr v
  end.

(** [AsyncHTTPClient().fetch(req)]: the request is handed to the client;
    without a response the client's own exception is raised, and a response
    outside 2xx is raised as an HTTP error with its status. *)
Definition http_client_fetch (req : HTTPRequest) : M HTTPResponse :=
  fun w =>
    let reply := server (requests_of w) req in
    let w' := (w ++ [EvFetch req reply])%list in
    match reply with
    | NoResponse e => (inl e, w')
    | Reply code body =>
        if (200 <=? code) && (code <? 300)
        then (inr (mkResponse code body), w')
        else (inl (HTTPClientError code), w')
    end.

(** Modelled from the spec: [OAuthenticator.fetch] of [oauth2.py], the
    generic token fetch helper of the base class. Section 4.2: a network
    failure or a non-2xx response propagates as a failure, a malformed JSON
    body fails with a parse error, otherwise the parsed JSON response is the
    result. *)
Definition fetch (req : HTTPRequest) : M json :=
  resp <- http_client_fetch req ;;
  lift (loads (resp_body resp)).

Definition form_headers : list (string * string) :=
  [("Content-Type", "application/x-www-form-urlencoded; charset=UTF-8")].

Definition get_user_attributes (self : AzureAdOAuthenticator) (oid : string) : M json :=
  let params : form :=
    [("scope", FSeq ["https://graph.microsoft.com/.default"]);
     ("client_secret", FStr (client_secret self));
     ("grant_type", FStr "client_credentials");
     ("client_id", FStr (client_id self))] in
  let data := urlencode params in
  let headers := form_headers in
  url <- lift (token_url self) ;;
  let req := mkRequest url POST headers (Some data) in
  resp <- http_client_fetch req ;;
  resp_json <- lift (loads (resp_body resp)) ;;
  access_token <- lift (py_getitem resp_json "access_token") ;;
  let headers := [("Authorization", "Bearer " ++ py_format access_token)] in
  let req := mkRequest ("https://graph.microsoft.com/v1.0/users/" ++ oid) GET headers None in
  resp <- http_client_fetch req ;;
  resp_json <- lift (loads (resp_body resp)) ;;
  ret resp_json.

(** The two shapes of the [jwt.decode] call. *)
Definition decode_kwargs (self : AzureAdOAuthenticator) : jwt_kwargs :=
  if PYJWT_2 then
    mkKwargs (Some {["verify_signature" := false]}) (Some (client_id self)) None
  else
    mkKwargs None None (Some false).

Definition authenticate (self : AzureAdOAuthenticator) (handler : Handler) : M json :=
  code <- lift (get_argument handler "code") ;;
  let params : form :=
    [("client_id", FStr (client_id self));
     ("client_secret", FStr (client_secret self));
     ("grant_type", FStr "authorization_code");
     ("code", FStr code);
     ("redirect_uri", FStr (get_callback_url handler))] in
  let data := urlencode params in
  url <- lift (token_url self) ;;
  let headers := form_headers in
  let req := mkRequest url POST headers (Some data) in
  resp_json <- fetch req ;;
  access_token <- lift (py_getitem resp_json "access_token") ;;
  id_token <- lift (py_getitem resp_json "id_token") ;;
  decoded <- lift (jwt_decode id_token (decode_kwargs self)) ;;
  log_warning (py_repr (JObj decoded)) ;;;
  name <- lift (dict_getitem decoded (username_claim self)) ;;
  let '(userdict, h) := new_dict {["name" := VJson name]} [] in
  let '(auth_state, h) := new_dict ∅ h in
  let h := setitem userdict "auth_state" (VRef auth_state) h in
  let h := setitem auth_state "access_token" (VJson access_token) h in
  let h := setitem auth_state "user" (VJson (JObj decoded)) h in
  ret (read_object h userdict).

End Operations.

(** The request of the authorization-code exchange, as [authenticate]
    builds it from the code and the resolved token URL. *)
Definition exchange_request `{RT : Runtime} (self : AzureAdOAuthenticator)
    (handler : Handler) (code url : string) : HTTPRequest :=
  mkRequest url POST form_headers
    (Some (urlencode
       [("client_id", FStr (client_id self));
        ("client_secret", FStr (client_secret self));
        ("grant_type", FStr "authorization_code");
        ("code", FStr code);
        ("redirect_uri", FStr (get_callback_url handler))])).

(** What the fetch helper makes of a reply of the server. *)
Definition fetch_outcome `{RT : Runtime} (reply : ServerReply) : result json :=
  match reply with
  | NoResponse e => inl e
  | Reply code body =>
      if (200 <=? code) && (code <? 300) then loads body
      else inl (HTTPClientError code)
  end.

(** The two requests of the directory lookup. *)
Definition credentials_request (self : AzureAdOAuthenticator) (url : string) : HTTPRequest :=
  mkRequest url POST form_headers
    (Some (urlencode
       [("scope", FSeq ["https://graph.microsoft.com/.default"]);
        ("client_secret", FStr (client_secret self));
        ("grant_type", FStr "client_credentials");
        ("client_id", FStr (client_id self))])).

Definition profile_request (oid bearer : string) : HTTPRequest :=
  mkRequest ("https://graph.microsoft.com/v1.0/users/" ++ oid) GET
    [("Authorization", "Bearer " ++ bearer)] None.

(** ** The authenticator as an object with state

    Reading a configurable trait whose value was never set runs its
    [@default] method and stores the result on the instance; later reads
    find the stored value. Here the instance is threaded through a call next
    to the trace, so that what one call leaves on the instance is what the
    next call finds. *)

Module Stateful.

Section Calls.

Context `{RT : Runtime}.

Definition State : Type := AzureAdOAuthenticator * World.

Definition MO (A : Type) : Type := State -> result A * State.

Definition ret {A} (a : A) : MO A := fun st => (inr a, st).

Definition raise {A} (e : exn) : MO A := fun st => (inl e, st).

Definition bind {A B} (c : MO A) (k : A -> MO B) : MO B :=
  fun st =>
    match c st with
    | (inr a, st') => k a st'
    | (inl e, st') => (inl e, st')
    end.

Definition lift {A} (r : result A) : MO A := fun st => (r, st).

(** A computation that only touches the trace. *)
Definition on_world {A} (c : M A) : MO A :=
  fun st => let '(r, w') := c (snd st) in (r, (fst st, w')).

(** A plain attribute of the instance. *)
Definition attribute {A} (f : AzureAdOAuthenticator -> A) : MO A :=
  fun st => (inr (f (fst st)), st).

Definition store (update : AzureAdOAuthenticator -> AzureAdOAuthenticator) : MO unit :=
  fun st => (inr tt, (update (fst st), snd st)).

Definition set_tenant_id (v : string) (self : AzureAdOAuthenticator) : AzureAdOAuthenticator :=
  mkAuthenticator (environ self) (access_token_version self) (client_id self)
    (client_secret self) (Some v) (username_claim_config self)
    (authorize_url_config self) (token_url_config self).

Definition set_username_claim (v : string) (self : AzureAdOAuthenticator) : AzureAdOAuthenticator :=
  mkAuthenticator (environ self) (access_token_version self) (client_id self)
    (client_secret self) (tenant_id_config self) (Some v)
    (authorize_url_config self) (token_url_config self).

Definition set_token_url (v : string) (self : AzureAdOAuthenticator) : AzureAdOAuthenticator :=
  mkAuthenticator (environ self) (access_token_version self) (client_id self)
    (client_secret self) (tenant_id_config self) (username_claim_config self)
    (authorize_url_config self) (Some v).

Declare Scope obj_scope.
Notation "x <- c ;; k" := (bind c (fun x => k))
  (at level 100, c at next level, right associativity) : obj_scope.
Notation "c ;;; k" := (bind c (fun _ => k))
  (at level 100, right associativity) : obj_scope.
#[local] Open Scope obj_scope.

(** Reading a trait: the stored value, else the default method, whose
    result is stored; when the default method raises, nothing is stored. *)
Definition read_trait {A} (stored : AzureAdOAuthenticator -> option A)
    (dflt : MO A) (set : A -> AzureAdOAuthenticator -> AzureAdOAuthenticator) : MO A :=
  configured <- attribute stored ;;
  match configured with
  | Some v => ret v
  | None => v <- dflt ;; store (set v) ;;; ret v
  end.

Definition tenant_id : MO string :=
  read_trait tenant_id_config (attribute _tenant_id_default) set_tenant_id.

Definition username_claim : MO string :=
  read_trait username_claim_config (attribute _username_claim_default) set_username_claim.

Definition _token_url_default : MO string :=
  version <- attribute access_token_version ;;
  if version =? 1 then
    tenant <- tenant_id ;;
    ret ("https://login.microsoftonline.com/" ++ tenant ++ "/oauth2/token")
  else if version =? 2 then
    tenant <- tenant_id ;;
    ret ("https://login.microsoftonline.com/" ++ tenant ++ "/oauth2/v2.0/token")
  else
    raise (ValueError "Invalid token version!").

Definition token_url : MO string :=
  read_trait token_url_config _token_url_default set_token_url.

Definition authenticate (handler : Handler) : MO json :=
  code <- lift (get_argument handler "code") ;;
  client_id <- attribute client_id ;;
  client_secret <- attribute client_secret ;;
  let params : form :=
    [("client_id", FStr client_id);
     ("client_secret", FStr client_secret);
     ("grant_type", FStr "authorization_code");
     ("code", FStr code);
     ("redirect_uri", FStr (get_callback_url handler))] in
  let data := urlencode params in
  url <- token_url ;;
  let headers := form_headers in
  let req := mkRequest url POST headers (Some data) in
  resp_json <- on_world (fetch req) ;;
  access_token <- lift (py_getitem resp_json "access_token") ;;
  id_token <- lift (py_getitem resp_json "id_token") ;;
  kwargs <- attribute decode_kwargs ;;
  decoded <- lift (jwt_decode id_token kwargs) ;;
  on_world (log_warning (py_repr (JObj decoded))) ;;;
  claim <- username_claim ;;
  name <- lift (dict_getitem decoded claim) ;;
  let '(userdict, h) := new_dict {["name" := VJson name]} [] in
  let '(auth_state, h) := new_dict ∅ h in
  let h := setitem userdict "auth_state" (VRef auth_state) h in
  let h := setitem auth_state "access_token" (VJson access_token) h in
  let h := setitem auth_state "user" (VJson (JObj decoded)) h in
  ret (read_object h userdict).

End Calls.

End Stateful.

(** Two states of one instance: what was configured is the same, and every
    trait reads the same. *)
Definition same_settings (self self' : AzureAdOAuthenticator) : Prop :=
  environ self' = environ self
  /\ access_token_version self' = access_token_version self
  /\ client_id self' = client_id self
  /\ client_secret self' = client_secret self
  /\ tenant_id self' = tenant_id self
  /\ username_claim self' = username_claim self
  /\ token_url self' = token_url self.

(** ** Test doubles

    A stub identity provider and stub libraries, used to run the operations
    on concrete inputs. *)

Module Stub.

Definition dq : string := String (ascii_of_nat 34) "".

Definition jwt_header : string := "eyJhbGciOiJub25lIn0".

(** A compact token [header.payload.signature]. *)
Definition token (payload : string) : string :=
  jwt_header ++ "." ++ payload ++ ".sig".

(** payload [{name: alice, aud: client1}] *)
Definition alice_token : string := token "eyJuYW1lIjoiYWxpY2UiLCJhdWQiOiJjbGllbnQxIn0".
(** payload [{name: (empty), aud: client1}] *)
Definition blank_token : string := token "eyJuYW1lIjoiIiwiYXVkIjoiY2xpZW50MSJ9".
(** payload [{aud: client1}] *)
Definition nameless_token : string := token "eyJhdWQiOiJjbGllbnQxIn0".
(** payload [{name: mallory, aud: other-app}] *)
Definition foreign_token : string := token "eyJuYW1lIjoibWFsbG9yeSIsImF1ZCI6Im90aGVyLWFwcCJ9".

Definition alice_claims : gmap string json :=
  {[ "name" := JStr "alice"; "aud" := JStr "client1" ]}.
Definition blank_claims : gmap string json :=
  {[ "name" := JStr ""; "aud" := JStr "client1" ]}.
Definition nameless_claims : gmap string json :=
  {[ "aud" := JStr "client1" ]}.
Definition foreign_claims : gmap string json :=
  {[ "name" := JStr "mallory"; "aud" := JStr "other-app" ]}.

(** The payload segment of the sample tokens, decoded. *)
Definition payload_of (tok : json) : option (gmap string json) :=
  match tok with
  | JStr s =>
      if String.eqb s alice_token then Some alice_claims
      else if String.eqb s blank_token then Some blank_claims
      else if String.eqb s nameless_token then Some nameless_claims
      else if String.eqb s foreign_token then Some foreign_claims
      else None
  | _ => None
  end.

(** The audience test of a JWT decoder: the [aud] claim must be the
    expected audience. *)
Definition audience_matches (claims : gmap string json) (audience : option string) : bool :=
  match audience, claims !! "aud" with
  | Some a, Some (JStr a') => String.eqb a a'
  | None, None => true
  | _, _ => false
  end.

(** A decoder that has no key: it can only decode with signature
    verification switched off ([verify_signature] in the options, or the
    older [verify=False]); [verify_aud] says whether the audience test runs. *)
Definition decode_with (verify_aud : jwt_kwargs -> bool -> bool)
    (tok : json) (kw : jwt_kwargs) : result (gmap string json) :=
  let options := default ∅ (kw_options kw) in
  let verify_signature :=
    default (default true (kw_verify kw)) (options !! "verify_signature") in
  if verify_signature then inl (PyJWTError "DecodeError")
  else
    match payload_of tok with
    | None => inl (PyJWTError "DecodeError")
    | Some claims =>
        if verify_aud kw verify_signature && negb (audience_matches claims (kw_audience kw))
        then inl (PyJWTError "InvalidAudienceError")
        else inr claims
    end.

(** Audience validation follows the option [verify_aud], which defaults to
    the value of [verify_signature]. *)
Definition decode_option_defaults : json -> jwt_kwargs -> result (gmap string json) :=
  decode_with (fun kw verify_signature =>
    default verify_signature (default ∅ (kw_options kw) !! "verify_aud")).

Definition json_object (fields : list (string * string)) : string :=
  "{" ++ join "," (List.map (fun f => dq ++ fst f ++ dq ++ ":" ++ dq ++ snd f ++ dq) fields) ++ "}".

(** Token-endpoint body carrying access token [A] and the ID token [tok]. *)
Definition tokens_body (tok : string) : string :=
  json_object [("access_token", "A"); ("id_token", tok)].

Definition no_access_token_body : string := json_object [("id_token", alice_token)].
Definition no_id_token_body : string := json_object [("access_token", "A")].
Definition graph_token_body : string := json_object [("access_token", "G")].
Definition profile_body : string :=
  json_object [("displayName", "Alice"); ("id", "0a1b")].
Definition html_body : string := "<html>Service unavailable</html>".

Definition string_fields (fields : list (string * string)) : json :=
  JObj (list_to_map (List.map (fun f => (fst f, JStr (snd f))) fields)).

(** A JSON reader for the sample bodies; anything else is not JSON. *)
Definition loads_table (body : string) : option json :=
  if String.eqb body (tokens_body alice_token) then
    Some (string_fields [("access_token", "A"); ("id_token", alice_token)])
  else if String.eqb body (tokens_body blank_token) then
    Some (string_fields [("access_token", "A"); ("id_token", blank_token)])
  else if String.eqb body (tokens_body nameless_token) then
    Some (string_fields [("access_token", "A"); ("id_token", nameless_token)])
  else if String.eqb body (tokens_body foreign_token) then
    Some (string_fields [("access_token", "A"); ("id_token", foreign_token)])
  else if String.eqb body no_access_token_body then
    Some (string_fields [("id_token", alice_token)])
  else if String.eqb body no_id_token_body then
    Some (string_fields [("access_token", "A")])
  else if String.eqb body graph_token_body then
    Some (string_fields [("access_token", "G")])
  else if String.eqb body profile_body then
    Some (string_fields [("displayName", "Alice"); ("id", "0a1b")])
  else None.

(** A token endpoint that answers every request with the same body. *)
Definition constant_server (body : string) : list HTTPRequest -> HTTPRequest -> ServerReply :=
  fun _ _ => Reply 200 body.

(** Token endpoint and directory API together: the POST gets the
    client-credentials token, the GET the profile. *)
Definition directory_server : list HTTPRequest -> HTTPRequest -> ServerReply :=
  fun _ req =>
    match req_method req with
    | POST => Reply 200 graph_token_body
    | GET => Reply 200 profile_body
    end.

(** A token endpoint that answers the first request with [body] and is
    out of order afterwards. *)
Definition one_shot_server (body : string) : list HTTPRequest -> HTTPRequest -> ServerReply :=
  fun history _ =>
    match history with
    | [] => Reply 200 body
    | _ :: _ => Reply 503 html_body
    end.

Definition runtime (pyjwt2 : bool)
    (decoder : json -> jwt_kwargs -> result (gmap string json))
    (srv : list HTTPRequest -> HTTPRequest -> ServerReply) : Runtime :=
  {| PYJWT_2 := pyjwt2;
     jwt_decode := decoder;
     json_loads := loads_table;
     py_repr := fun _ => "<repr>";
     get_callback_url := fun _ => "https://hub.example.org/hub/oauth_callback";
     server := srv |}.

(** An identity provider that hands out the ID token [tok], seen through a
    pyjwt >= 2 decoder with the option defaults. *)
Definition provider (tok : string) : Runtime :=
  runtime true decode_option_defaults (constant_server (tokens_body tok)).

(** A token endpoint that answers with an arbitrary body. *)
Definition endpoint (body : string) : Runtime :=
  runtime true decode_option_defaults (constant_server body).

(** An authenticator for tenant [abc], client [client1]. *)
Definition azure (version : Z) : AzureAdOAuthenticator :=
  mkAuthenticator ∅ version "client1" "s3cret" (Some "abc") None None None.

(** An authenticator whose tenant was never set. *)
Definition azure_no_tenant : AzureAdOAuthenticator :=
  mkAuthenticator ∅ 1 "client1" "s3cret" None None None None.

(** The callback request [?code=c0de]. *)
Definition callback : Handler :=
  mkHandler (fun name => if String.eqb name "code" then Some "c0de" else None).

(** A server that answers every request with the given status. *)
Definition status_server (code : Z) (body : string) : list HTTPRequest -> HTTPRequest -> ServerReply :=
  fun _ _ => Reply code body.

(** A server that refuses the connection. *)
Definition refusing_server : list HTTPRequest -> HTTPRequest -> ServerReply :=
  fun _ _ => NoResponse ConnectionRefusedError.

(** The token endpoint grants the client-credentials token, the directory
    API refuses the connection. *)
Definition directory_refusing_server : list HTTPRequest -> HTTPRequest -> ServerReply :=
  fun _ req =>
    match req_method req with
    | POST => Reply 200 graph_token_body
    | GET => NoResponse ConnectionRefusedError
    end.

(** The token endpoint grants the client-credentials token, the directory
    API does not know the user. *)
Definition directory_down_server : list HTTPRequest -> HTTPRequest -> ServerReply :=
  fun _ req =>
    match req_method req with
    | POST => Reply 200 graph_token_body
    | GET => Reply 404 html_body
    end.

Definition lookup_runtime (srv : list HTTPRequest -> HTTPRequest -> ServerReply) : Runtime :=
  runtime true decode_option_defaults srv.

(** A token endpoint whose body is the JSON array [[]]. *)
Definition array_endpoint : Runtime :=
  {| PYJWT_2 := true;
     jwt_decode := decode_option_defaults;
     json_loads := fun body => if String.eqb body "[]" then Some (JArr []) else None;
     py_repr := fun _ => "<repr>";
     get_callback_url := fun _ => "https://hub.example.org/hub/oauth_callback";
     server := constant_server "[]" |}.

(** An authenticator whose token URL is configured explicitly. *)
Definition azure_configured (version : Z) (url : string) : AzureAdOAuthenticator :=
  mkAuthenticator ∅ version "client1" "s3cret" (Some "abc") None None (Some url).

(** A callback request without a [code] argument. *)
Definition bare_callback : Handler := mkHandler (fun _ => None).

End Stub.

(** The record [authenticate] hands to the host: the username under
    [name], and under [auth_state] the access token and the claims. *)
Definition identity_record (name access_token : json) (decoded : gmap string json) : json :=
  JObj {[ "name" := name;
          "auth_state" := JObj {[ "access_token" := access_token;
                                  "user" := JObj decoded ]} ]}.

(** ** A path helper for the statement about the v2.0 segment

    [insert_before_final seg url] puts the path segment [seg] in front of
    the final path component of [url], the part after its last slash. *)

Fixpoint has_slash (s : string) : bool :=
  match s with
  | EmptyString => false
  | String a rest => Ascii.eqb a "/" || has_slash rest
  end.

Fixpoint insert_before_final (seg : string) (url : string) : string :=
  match url with
  | EmptyString => ""
  | String a rest =>
      if Ascii.eqb a "/" && negb (has_slash rest)
      then String a (seg ++ "/" ++ rest)
      else String a (insert_before_final seg rest)
  end.

(** [self] with the class attribute [access_token_version] overridden. *)
Definition with_version (v : Z) (self : AzureAdOAuthenticator) : AzureAdOAuthenticator :=
  mkAuthenticator (environ self) v (client_id self) (client_secret self)
    (tenant_id_config self) (username_claim_config self)
    (authorize_url_config self) (token_url_config self).

(** The lines written to the log, oldest first. *)
Definition log_lines_of (w : World) : list string :=
  omap (fun e => match e with EvLogWarning line => Some line | EvFetch _ _ => None end) w.

(** The bytes a form body is made of: the unreserved characters, the
    escapes [%] and [+], and the separators [=] and [&]. *)
Definition wire_alphabet : string :=
  "ABCDEFGHIJKLMNOPQRSTUVWXYZabcdefghijklmnopqrstuvwxyz0123456789_.-~%+=&".

Definition all_in (alphabet : string) (s : string) : bool :=
  forallb (fun a => ascii_in a alphabet) (list_ascii_of_string s).

(** [s[n:]]. *)
Fixpoint string_drop (n : nat) (s : string) : string :=
  match n, s with
  | O, _ => s
  | S n', String _ rest => string_drop n' rest
  | S _, EmptyString => ""
  end.

(** * Properties *)

(** ** Form encoding *)

Lemma append_cons (x : ascii) (a b : string) : String x a ++ b = String x (a ++ b).
Proof. reflexivity. Qed.

Lemma append_nil_l (b : string) : "" ++ b = b.
Proof. reflexivity. Qed.

Lemma append_assoc (a b c : string) : (a ++ b) ++ c = a ++ (b ++ c).
Proof.
  induction a as [|x a IH]; [reflexivity|].
  rewrite !append_cons. now rewrite IH.
Qed.

Ltac each_byte a := destruct a as [[] [] [] [] [] [] [] []].

Lemma replace_space_plus_app a b : replace_space_plus (a ++ b) = replace_space_plus a ++ replace_space_plus b.
Proof. induction a as [|x a IH]; [reflexivity|]. rewrite append_cons. simpl. rewrite IH. reflexivity. Qed.

Lemma replace_quote_byte a :
  replace_space_plus (if always_safe a || ascii_in a ("=" ++ " ") then String a "" else percent_byte a) = plus_byte a.
Proof. each_byte a; reflexivity. Qed.

Lemma quote_byte_no_space a : Ascii.eqb a " " = false ->
  (if always_safe a || ascii_in a "=" then String a "" else percent_byte a) = plus_byte a.
Proof. each_byte a; intros H; try discriminate H; reflexivity. Qed.

Lemma quote_plus_encode s : quote_plus "=" s = plus_encode s.
Proof.
  unfold quote_plus. destruct (ascii_in " " s) eqn:Hs.
  - clear Hs. induction s as [|a s IH]; [reflexivity|].
    simpl quote. rewrite replace_space_plus_app, IH, replace_quote_byte. reflexivity.
  - induction s as [|a s IH]; [reflexivity|].
    unfold ascii_in in Hs. simpl in Hs. apply orb_false_elim in Hs as [Ha Hs].
    simpl. rewrite IH by exact Hs. rewrite quote_byte_no_space; [reflexivity|].
    rewrite Ascii.eqb_sym. exact Ha.
Qed.

Lemma unquote_plus_byte a r : unquote_plus (plus_byte a ++ r) = String a (unquote_plus r).
Proof. each_byte a; reflexivity. Qed.

Lemma unquote_plus_encode s : unquote_plus (plus_encode s) = s.
Proof.
  induction s as [|a s IH]; [reflexivity|].
  cbn [plus_encode]. now rewrite unquote_plus_byte, IH.
Qed.

Lemma ascii_in_cons c a s : ascii_in c (String a s) = Ascii.eqb c a || ascii_in c s.
Proof. reflexivity. Qed.

Lemma ascii_in_app c a b : ascii_in c (a ++ b) = ascii_in c a || ascii_in c b.
Proof.
  induction a as [|x a IH]; [reflexivity|].
  rewrite append_cons, !ascii_in_cons, IH. now rewrite orb_assoc.
Qed.

Lemma split_on_prefix c p r :
  ascii_in c p = false ->
  split_on c (p ++ r) = (p ++ fst (split_on c r), snd (split_on c r)).
Proof.
  induction p as [|a p IH]; intros Hp.
  - rewrite !append_nil_l. now destruct (split_on c r).
  - rewrite ascii_in_cons in Hp. apply orb_false_elim in Hp as [Ha Hp].
    rewrite !append_cons. cbn [split_on]. rewrite IH by exact Hp.
    rewrite Ascii.eqb_sym, Ha. reflexivity.
Qed.

Lemma split_on_sep c r :
  split_on c (String c r) = ("", fst (split_on c r) :: snd (split_on c r)).
Proof. cbn [split_on]. rewrite Ascii.eqb_refl. now destruct (split_on c r). Qed.

Lemma split_first_prefix c p r :
  ascii_in c p = false ->
  split_first c (p ++ String c r) = Some (p, r).
Proof.
  induction p as [|a p IH]; intros Hp.
  - rewrite append_nil_l. cbn [split_first]. now rewrite Ascii.eqb_refl.
  - rewrite ascii_in_cons in Hp. apply orb_false_elim in Hp as [Ha Hp].
    rewrite append_cons. cbn [split_first]. rewrite IH by exact Hp.
    rewrite Ascii.eqb_sym, Ha. reflexivity.
Qed.

Lemma plus_byte_no_amp a : ascii_in "&" (plus_byte a) = false.
Proof. each_byte a; reflexivity. Qed.

Lemma plus_byte_eq_sign a : ascii_in "=" (plus_byte a) = Ascii.eqb "=" a.
Proof. each_byte a; reflexivity. Qed.

Lemma plus_encode_no_amp s : ascii_in "&" (plus_encode s) = false.
Proof.
  induction s as [|a s IH]; [reflexivity|].
  cbn [plus_encode]. now rewrite ascii_in_app, plus_byte_no_amp, IH.
Qed.

Lemma plus_encode_eq_sign s : ascii_in "=" (plus_encode s) = ascii_in "=" s.
Proof.
  induction s as [|a s IH]; [reflexivity|].
  cbn [plus_encode]. now rewrite ascii_in_app, plus_byte_eq_sign, IH, ascii_in_cons.
Qed.

Lemma decode_encode_pair k v :
  ascii_in "=" k = false ->
  decode_pair (encode_pair (k, v)) = [(k, v)].
Proof.
  intros Hk. unfold decode_pair, encode_pair. cbn [fst snd].
  change ("=" ++ plus_encode v) with (String "=" (plus_encode v)).
  rewrite split_first_prefix by (now rewrite plus_encode_eq_sign).
  rewrite !unquote_plus_encode.
  destruct (plus_encode k ++ String "=" (plus_encode v)) eqn:E; [|reflexivity].
  destruct (plus_encode k); discriminate E.
Qed.

Lemma split_on_encode_pair p r :
  split_on "&" (encode_pair p ++ r)
  = (encode_pair p ++ fst (split_on "&" r), snd (split_on "&" r)).
Proof.
  apply split_on_prefix. unfold encode_pair.
  rewrite !ascii_in_app, !plus_encode_no_amp. reflexivity.
Qed.

Lemma append_nil_r (a : string) : a ++ "" = a.
Proof. induction a as [|x a IH]; [reflexivity|]. now rewrite append_cons, IH. Qed.

Lemma form_decode_join (pairs : list (string * string)) :
  Forall (fun p => ascii_in "=" (fst p) = false) pairs ->
  form_decode (join "&" (List.map encode_pair pairs)) = pairs.
Proof.
  unfold form_decode.
  induction 1 as [|[k v] pairs Hk _ IH]; [reflexivity|].
  cbn [List.map join]. destruct (List.map encode_pair pairs) as [|q qs] eqn:E.
  - destruct pairs; [|discriminate E].
    rewrite <- (append_nil_r (encode_pair (k, v))), split_on_encode_pair.
    cbn [split_on fst snd List.map concat]. rewrite append_nil_r.
    rewrite decode_encode_pair by exact Hk. reflexivity.
  - change ("&" ++ join "&" (q :: qs)) with (String "&" (join "&" (q :: qs))).
    rewrite split_on_encode_pair, split_on_sep. cbn [fst snd].
    rewrite append_nil_r. cbn [List.map concat].
    rewrite decode_encode_pair by exact Hk.
    destruct (split_on "&" (join "&" (q :: qs))) as [piece pieces].
    cbn [fst snd]. cbn [List.map concat] in IH. now rewrite IH.
Qed.

Lemma urlencode_join (params : form) :
  urlencode params = join "&" (List.map encode_pair (form_fields params)).
Proof.
  unfold urlencode, form_fields. f_equal.
  induction params as [|[k v] params IH]; [reflexivity|].
  cbn [List.map concat]. rewrite List.map_app, IH. f_equal.
  unfold urlencode_pairs, encode_pair. cbn [fst snd].
  destruct v as [v|l].
  - cbn [List.map]. now rewrite !quote_plus_encode.
  - rewrite List.map_map. apply List.map_ext. intros elt.
    cbn [fst snd]. now rewrite !quote_plus_encode.
Qed.

(** A form whose names carry no [=] is read back as the pairs it stands
    for. *)
Theorem form_decode_urlencode (params : form) :
  Forall (fun p => ascii_in "=" (fst p) = false) params ->
  form_decode (urlencode params) = form_fields params.
Proof.
  intros Hkeys. rewrite urlencode_join. apply form_decode_join.
  unfold form_fields. induction Hkeys as [|[k v] params Hk _ IH]; [constructor|].
  cbn [List.map concat]. apply Forall_app. split; [|exact IH].
  destruct v as [v|l]; cbn [snd fst] in *.
  - now constructor.
  - induction l; constructor; [exact Hk|assumption].
Qed.

Example urlencode_sample :
  urlencode [("scope", FSeq ["https://graph.microsoft.com/.default"]); ("a b~", FStr "x=y&z /")]
  = "scope=https%3A%2F%2Fgraph.microsoft.com%2F.default&a+b~=x=y%26z+%2F".
Proof. reflexivity. Qed.

Example form_decode_sample :
  form_decode "scope=https%3A%2F%2Fgraph.microsoft.com%2F.default&a+b~=x=y%26z+%2F"
  = [("scope", "https://graph.microsoft.com/.default"); ("a b~", "x=y&z /")].
Proof. reflexivity. Qed.

(** ** Path segments *)

Lemma has_slash_app (a b : string) : has_slash (a ++ b) = has_slash a || has_slash b.
Proof.
  induction a as [|x a IH]; [reflexivity|].
  rewrite append_cons. simpl. rewrite IH. now rewrite orb_assoc.
Qed.

Lemma insert_before_final_spec (seg prefix final : string) :
  has_slash final = false ->
  insert_before_final seg (prefix ++ "/" ++ final) = prefix ++ "/" ++ seg ++ "/" ++ final.
Proof.
  intros Hfinal. induction prefix as [|x prefix IH].
  - rewrite !append_nil_l, append_cons, append_nil_l. simpl.
    now rewrite Hfinal.
  - rewrite !(append_cons x prefix). simpl. rewrite IH.
    rewrite has_slash_app, append_cons. simpl.
    now rewrite orb_true_r, andb_false_r.
Qed.

Lemma tenant_id_with_version v self : tenant_id (with_version v self) = tenant_id self.
Proof. reflexivity. Qed.

Lemma with_version_same v self : access_token_version self = v -> with_version v self = self.
Proof. intros <-. now destruct self. Qed.

(** ** The shape of a run of [authenticate] *)

Section AuthenticateRuns.

Context `{RT : Runtime}.

(** The in-place construction yields the nested record. *)
Lemma built_record (name access_token : json) (decoded : gmap string json) :
  (let '(userdict, h) := new_dict {["name" := VJson name]} [] in
   let '(auth_state, h) := new_dict ∅ h in
   let h := setitem userdict "auth_state" (VRef auth_state) h in
   let h := setitem auth_state "access_token" (VJson access_token) h in
   let h := setitem auth_state "user" (VJson (JObj decoded)) h in
   read_object h userdict) = identity_record name access_token decoded.
Proof. vm_compute. reflexivity. Qed.

(** [authenticate] is a chain of steps; the first one that raises ends the
    run, and only the last one produces a record. *)
Lemma authenticate_steps (self : AzureAdOAuthenticator) (handler : Handler) (w : World) :
  authenticate self handler w =
    match get_argument handler "code" with
    | inl e => (inl e, w)
    | inr code =>
    match token_url self with
    | inl e => (inl e, w)
    | inr url =>
    match fetch (exchange_request self handler code url) w with
    | (inl e, w1) => (inl e, w1)
    | (inr resp_json, w1) =>
    match py_getitem resp_json "access_token" with
    | inl e => (inl e, w1)
    | inr access_token =>
    match py_getitem resp_json "id_token" with
    | inl e => (inl e, w1)
    | inr id_token =>
    match jwt_decode id_token (decode_kwargs self) with
    | inl e => (inl e, w1)
    | inr decoded =>
        let w2 := (w1 ++ [EvLogWarning (py_repr (JObj decoded))])%list in
        match dict_getitem decoded (username_claim self) with
        | inl e => (inl e, w2)
        | inr name => (inr (identity_record name access_token decoded), w2)
        end
    end end end end end end.
Proof.
  unfold authenticate, bind, lift, log_warning, ret.
  destruct (get_argument handler "code") as [e|code]; [reflexivity|].
  destruct (token_url self) as [e|url]; [reflexivity|].
  fold (exchange_request self handler code url).
  destruct (fetch _ w) as [[e|resp_json] w1]; [reflexivity|].
  destruct (py_getitem resp_json "access_token") as [e|access_token]; [reflexivity|].
  destruct (py_getitem resp_json "id_token") as [e|id_token]; [reflexivity|].
  destruct (jwt_decode id_token (decode_kwargs self)) as [e|decoded]; [reflexivity|].
  cbv zeta.
  destruct (dict_getitem decoded (username_claim self)) as [e|name]; [reflexivity|].
  now rewrite <- (built_record name access_token decoded).
Qed.

End AuthenticateRuns.

(** ** URL resolution *)

Example authorize_url_abc_v1 :
  authorize_url (Stub.azure 1) = inr "https://login.microsoftonline.com/abc/oauth2/authorize"
  /\ token_url (Stub.azure 1) = inr "https://login.microsoftonline.com/abc/oauth2/token"
  /\ authorize_url (Stub.azure 2) = inr "https://login.microsoftonline.com/abc/oauth2/v2.0/authorize"
  /\ token_url (Stub.azure 2) = inr "https://login.microsoftonline.com/abc/oauth2/v2.0/token".
Proof. repeat split. Qed.

(** C4. For every tenant identifier, version 1 resolves to
    [https://login.microsoftonline.com/{tenant}/oauth2/authorize] and
    [.../oauth2/token]; version 2 resolves to the same URLs with the segment
    [v2.0] inserted before the final path component, that is
    [.../oauth2/v2.0/authorize] and [.../oauth2/v2.0/token]. *)
Theorem url_resolution_v1_v2 (self : AzureAdOAuthenticator) :
  let base := "https://login.microsoftonline.com/" ++ tenant_id self in
  _authorize_url_default (with_version 1 self) = inr (base ++ "/oauth2/authorize")
  /\ _token_url_default (with_version 1 self) = inr (base ++ "/oauth2/token")
  /\ _authorize_url_default (with_version 2 self)
     = inr (insert_before_final "v2.0" (base ++ "/oauth2/authorize"))
  /\ _token_url_default (with_version 2 self)
     = inr (insert_before_final "v2.0" (base ++ "/oauth2/token"))
  /\ insert_before_final "v2.0" (base ++ "/oauth2/authorize") = base ++ "/oauth2/v2.0/authorize"
  /\ insert_before_final "v2.0" (base ++ "/oauth2/token") = base ++ "/oauth2/v2.0/token".
Proof.
  intros base.
  assert (Ha : insert_before_final "v2.0" (base ++ "/oauth2/authorize")
               = base ++ "/oauth2/v2.0/authorize").
  { change (base ++ "/oauth2/authorize") with (base ++ "/oauth2" ++ "/" ++ "authorize").
    rewrite <- (append_assoc base "/oauth2"), insert_before_final_spec by reflexivity.
    now rewrite append_assoc. }
  assert (Ht : insert_before_final "v2.0" (base ++ "/oauth2/token")
               = base ++ "/oauth2/v2.0/token").
  { change (base ++ "/oauth2/token") with (base ++ "/oauth2" ++ "/" ++ "token").
    rewrite <- (append_assoc base "/oauth2"), insert_before_final_spec by reflexivity.
    now rewrite append_assoc. }
  rewrite Ha, Ht. subst base.
  unfold _authorize_url_default, _token_url_default.
  rewrite !tenant_id_with_version. cbn [access_token_version with_version Z.eqb Pos.eqb].
  rewrite !append_assoc. repeat split.
Qed.

(** C5. For every API version other than 1 and 2, deriving the authorize
    URL and deriving the token URL both raise
    [ValueError('Invalid token version!')]; a trait left unset reads as that
    error, and the first operation that reads the token URL stops there,
    before any request is sent. *)
Theorem invalid_version_rejected `{RT : Runtime} (self : AzureAdOAuthenticator)
    (handler : Handler) (oid : string) (w : World) :
  access_token_version self <> 1 ->
  access_token_version self <> 2 ->
  let err := ValueError "Invalid token version!" in
  _authorize_url_default self = inl err
  /\ _token_url_default self = inl err
  /\ (authorize_url_config self = None -> authorize_url self = inl err)
  /\ (token_url_config self = None ->
        token_url self = inl err
        /\ get_user_attributes self oid w = (inl err, w)
        /\ forall code, get_argument handler "code" = inr code ->
             authenticate self handler w = (inl err, w)).
Proof.
  intros H1 H2 err.
  assert (Ha : _authorize_url_default self = inl err).
  { unfold _authorize_url_default.
    destruct (Z.eqb_spec (access_token_version self) 1); [contradiction|].
    destruct (Z.eqb_spec (access_token_version self) 2); [contradiction|].
    reflexivity. }
  assert (Ht : _token_url_default self = inl err).
  { unfold _token_url_default.
    destruct (Z.eqb_spec (access_token_version self) 1); [contradiction|].
    destruct (Z.eqb_spec (access_token_version self) 2); [contradiction|].
    reflexivity. }
  split; [exact Ha|]. split; [exact Ht|]. split.
  - intros Hcfg. unfold authorize_url. now rewrite Hcfg.
  - intros Hcfg.
    assert (Hurl : token_url self = inl err) by (unfold token_url; now rewrite Hcfg).
    split; [exact Hurl|]. split.
    + unfold get_user_attributes, bind, lift. now rewrite Hurl.
    + intros code Hcode. rewrite authenticate_steps, Hcode. now rewrite Hurl.
Qed.

Lemma invalid_version_rejected_witness :
  _authorize_url_default (Stub.azure 3) = inl (ValueError "Invalid token version!")
  /\ _token_url_default (Stub.azure 3) = inl (ValueError "Invalid token version!")
  /\ authenticate (RT := Stub.provider Stub.alice_token)
       (Stub.azure 3) Stub.callback []
     = (inl (ValueError "Invalid token version!"), []).
Proof.
  destruct (invalid_version_rejected
              (RT := Stub.provider Stub.alice_token)
              (Stub.azure 3) Stub.callback "0a1b" [])
    as (Ha & Ht & _ & Huse).
  - simpl. lia.
  - simpl. lia.
  - split; [exact Ha|]. split; [exact Ht|].
    destruct (Huse eq_refl) as (_ & _ & Hauth).
    exact (Hauth "c0de" eq_refl).
Defined.

(** C9 (as the code has it). An unset tenant identifier is not an error:
    with no configured value and no [AAD_TENANT_ID] in the environment the
    tenant is the empty string, URL resolution succeeds exactly when the API
    version is 1 or 2, and the URLs carry an empty tenant segment. *)
Theorem missing_tenant_resolves_to_empty_segment (self : AzureAdOAuthenticator) :
  tenant_id_config self = None ->
  environ self !! "AAD_TENANT_ID" = None ->
  tenant_id self = ""
  /\ is_ok (_authorize_url_default self)
     = (access_token_version self =? 1) || (access_token_version self =? 2)
  /\ is_ok (_token_url_default self)
     = (access_token_version self =? 1) || (access_token_version self =? 2)
  /\ _authorize_url_default (with_version 1 self)
     = inr "https://login.microsoftonline.com//oauth2/authorize"
  /\ _token_url_default (with_version 1 self)
     = inr "https://login.microsoftonline.com//oauth2/token"
  /\ _authorize_url_default (with_version 2 self)
     = inr "https://login.microsoftonline.com//oauth2/v2.0/authorize"
  /\ _token_url_default (with_version 2 self)
     = inr "https://login.microsoftonline.com//oauth2/v2.0/token".
Proof.
  intros Hcfg Henv.
  assert (Ht : tenant_id self = "").
  { unfold tenant_id, _tenant_id_default. now rewrite Hcfg, Henv. }
  split; [exact Ht|].
  unfold _authorize_url_default, _token_url_default.
  rewrite !tenant_id_with_version, Ht.
  cbn [access_token_version with_version Z.eqb Pos.eqb].
  destruct (access_token_version self =? 1), (access_token_version self =? 2);
    repeat split.
Qed.

Lemma missing_tenant_resolves_witness :
  tenant_id Stub.azure_no_tenant = ""
  /\ _authorize_url_default Stub.azure_no_tenant
     = inr "https://login.microsoftonline.com//oauth2/authorize".
Proof.
  destruct (missing_tenant_resolves_to_empty_segment Stub.azure_no_tenant eq_refl eq_refl)
    as (Ht & _ & _ & Ha & _).
  split; [exact Ht | exact Ha].
Defined.

(** C9, the failing case: with the tenant unset, URL resolution raises
    nothing and authentication goes through to an identity record. *)
Lemma missing_tenant_is_not_rejected :
  tenant_id_config Stub.azure_no_tenant = None
  /\ environ Stub.azure_no_tenant !! "AAD_TENANT_ID" = None
  /\ authorize_url Stub.azure_no_tenant
     = inr "https://login.microsoftonline.com//oauth2/authorize"
  /\ token_url Stub.azure_no_tenant
     = inr "https://login.microsoftonline.com//oauth2/token"
  /\ fst (authenticate (RT := Stub.provider Stub.alice_token)
            Stub.azure_no_tenant Stub.callback [])
     = inr (identity_record (JStr "alice") (JStr "A") Stub.alice_claims).
Proof. repeat split. Qed.

(** ** Directory attribute lookup *)

Section DirectoryLookup.

Context `{RT : Runtime}.

Lemma requests_of_snoc (w : World) (req : HTTPRequest) (reply : ServerReply) :
  requests_of (w ++ [EvFetch req reply])%list = (requests_of w ++ [req])%list.
Proof. unfold requests_of. now rewrite omap_app. Qed.

Lemma requests_of_log (w : World) (line : string) :
  requests_of (w ++ [EvLogWarning line])%list = requests_of w.
Proof. unfold requests_of. rewrite omap_app. simpl. now rewrite app_nil_r. Qed.

(** A 2xx reply is handed back; the request and the reply are on the trace. *)
Lemma http_client_fetch_2xx (req : HTTPRequest) (w : World) (code : Z) (body : string) :
  server (requests_of w) req = Reply code body ->
  200 <= code < 300 ->
  http_client_fetch req w
  = (inr (mkResponse code body), (w ++ [EvFetch req (Reply code body)])%list).
Proof.
  intros Hreply Hcode. unfold http_client_fetch. rewrite Hreply.
  destruct (Z.leb_spec 200 code); [|lia].
  destruct (Z.ltb_spec code 300); [|lia].
  reflexivity.
Qed.

(** Whatever happens, one call to the HTTP client sends one request. *)
Lemma http_client_fetch_trace (req : HTTPRequest) (w : World) :
  snd (http_client_fetch req w)
  = (w ++ [EvFetch req (server (requests_of w) req)])%list.
Proof.
  unfold http_client_fetch.
  destruct (server (requests_of w) req) as [e|code body]; [reflexivity|].
  now destruct ((200 <=? code) && (code <? 300)).
Qed.

(** C7. For every object identifier the lookup sends exactly two requests,
    in this order: a POST to the token endpoint whose form reads back as
    [scope=https://graph.microsoft.com/.default], [client_secret],
    [grant_type=client_credentials] and [client_id], answered by a JSON
    object with [access_token]; then a GET of
    [https://graph.microsoft.com/v1.0/users/{oid}] with header
    [Authorization: Bearer {access_token}]. The JSON value parsed from the
    second answer is returned as it is. *)
Theorem get_user_attributes_two_calls (self : AzureAdOAuthenticator) (oid : string)
    (w : World) (url : string)
    (code1 : Z) (body1 : string) (grant : json) (access_token : string)
    (code2 : Z) (body2 : string) (attributes : json) :
  let req1 := credentials_request self url in
  let req2 := profile_request oid access_token in
  token_url self = inr url ->
  server (requests_of w) req1 = Reply code1 body1 ->
  200 <= code1 < 300 ->
  json_loads body1 = Some grant ->
  py_getitem grant "access_token" = inr (JStr access_token) ->
  server (requests_of w ++ [req1])%list req2 = Reply code2 body2 ->
  200 <= code2 < 300 ->
  json_loads body2 = Some attributes ->
  get_user_attributes self oid w
  = (inr attributes,
     (w ++ [EvFetch req1 (Reply code1 body1); EvFetch req2 (Reply code2 body2)])%list)
  /\ req1 = mkRequest url POST
              [("Content-Type", "application/x-www-form-urlencoded; charset=UTF-8")]
              (Some (urlencode
                 [("scope", FSeq ["https://graph.microsoft.com/.default"]);
                  ("client_secret", FStr (client_secret self));
                  ("grant_type", FStr "client_credentials");
                  ("client_id", FStr (client_id self))]))
  /\ (forall body, req_body req1 = Some body ->
        form_decode body
        = [("scope", "https://graph.microsoft.com/.default");
           ("client_secret", client_secret self);
           ("grant_type", "client_credentials");
           ("client_id", client_id self)])
  /\ req2 = mkRequest ("https://graph.microsoft.com/v1.0/users/" ++ oid) GET
              [("Authorization", "Bearer " ++ access_token)] None.
Proof.
  intros req1 req2 Hurl Hr1 Hc1 Hj1 Htok Hr2 Hc2 Hj2.
  split; [|split; [reflexivity|split; [|reflexivity]]].
  2:{ intros body [= <-]. rewrite form_decode_urlencode; [reflexivity|].
      repeat constructor. }
  unfold get_user_attributes, bind, lift, ret. rewrite Hurl.
  fold (credentials_request self url). fold req1.
  rewrite (http_client_fetch_2xx req1 w code1 body1 Hr1 Hc1).
  cbn [resp_body]. unfold loads at 1. rewrite Hj1, Htok.
  cbn [py_format]. fold (profile_request oid access_token). fold req2.
  rewrite (http_client_fetch_2xx req2 _ code2 body2).
  - cbn [resp_body]. unfold loads. rewrite Hj2.
    now rewrite <- app_assoc.
  - now rewrite requests_of_snoc.
  - exact Hc2.
Qed.

(** Whatever the servers answer, the lookup sends at most two requests, and
    the first one is the client-credentials POST. *)
Lemma get_user_attributes_requests (self : AzureAdOAuthenticator) (oid : string)
    (w : World) :
  let sent := requests_of (snd (get_user_attributes self oid w)) in
  sent = requests_of w
  \/ exists url, token_url self = inr url
      /\ (sent = (requests_of w ++ [credentials_request self url])%list
          \/ exists req2, req_method req2 = GET
               /\ sent = (requests_of w ++ [credentials_request self url; req2])%list).
Proof.
  unfold get_user_attributes, bind, lift, ret.
  destruct (token_url self) as [e|url]; [now left|].
  right. exists url. split; [reflexivity|].
  fold (credentials_request self url).
  pose proof (http_client_fetch_trace (credentials_request self url) w) as Ht1.
  destruct (http_client_fetch (credentials_request self url) w) as [[e|resp] w1].
  { left. cbn [snd] in *. subst w1. apply requests_of_snoc. }
  cbn [snd] in Ht1.
  destruct (loads (resp_body resp)) as [e|resp_json].
  { left. cbn [snd]. subst w1. apply requests_of_snoc. }
  destruct (py_getitem resp_json "access_token") as [e|access_token].
  { left. cbn [snd]. subst w1. apply requests_of_snoc. }
  right. eexists (mkRequest _ GET _ None). split; [reflexivity|].
  match goal with
  | |- context [http_client_fetch ?r w1] =>
      pose proof (http_client_fetch_trace r w1) as Ht2;
      destruct (http_client_fetch r w1) as [[e|resp2] w2]
  end.
  - cbn [snd] in *. subst w2 w1.
    now rewrite !requests_of_snoc, <- app_assoc.
  - cbn [snd] in Ht2.
    destruct (loads (resp_body resp2)); cbn [snd]; subst w2 w1;
      now rewrite !requests_of_snoc, <- app_assoc.
Qed.

End DirectoryLookup.

Lemma get_user_attributes_two_calls_witness :
  get_user_attributes (RT := Stub.runtime true Stub.decode_option_defaults Stub.directory_server)
    (Stub.azure 1) "0a1b" []
  = (inr (Stub.string_fields [("displayName", "Alice"); ("id", "0a1b")]),
     [EvFetch
        (mkRequest "https://login.microsoftonline.com/abc/oauth2/token" POST
           [("Content-Type", "application/x-www-form-urlencoded; charset=UTF-8")]
           (Some "scope=https%3A%2F%2Fgraph.microsoft.com%2F.default&client_secret=s3cret&grant_type=client_credentials&client_id=client1"))
        (Reply 200 Stub.graph_token_body);
      EvFetch
        (mkRequest "https://graph.microsoft.com/v1.0/users/0a1b" GET
           [("Authorization", "Bearer G")] None)
        (Reply 200 Stub.profile_body)]).
Proof.
  apply (get_user_attributes_two_calls
           (RT := Stub.runtime true Stub.decode_option_defaults Stub.directory_server)
           (Stub.azure 1) "0a1b" [] "https://login.microsoftonline.com/abc/oauth2/token"
           200 Stub.graph_token_body (Stub.string_fields [("access_token", "G")]) "G"
           200 Stub.profile_body
           (Stub.string_fields [("displayName", "Alice"); ("id", "0a1b")]));
    first [reflexivity | lia].
Defined.

(** ** Authentication *)

Section Authenticate.

Context `{RT : Runtime}.

(** A record comes back only from a run in which every step succeeded. *)
Lemma authenticate_success_inv (self : AzureAdOAuthenticator) (handler : Handler)
    (w : World) (rec : json) :
  fst (authenticate self handler w) = inr rec ->
  exists code url resp_json w1 access_token id_token decoded name,
    get_argument handler "code" = inr code
    /\ token_url self = inr url
    /\ fetch (exchange_request self handler code url) w = (inr resp_json, w1)
    /\ py_getitem resp_json "access_token" = inr access_token
    /\ py_getitem resp_json "id_token" = inr id_token
    /\ jwt_decode id_token (decode_kwargs self) = inr decoded
    /\ decoded !! username_claim self = Some name
    /\ rec = identity_record name access_token decoded.
Proof.
  rewrite authenticate_steps.
  destruct (get_argument handler "code") as [e|code]; [discriminate|].
  destruct (token_url self) as [e|url]; [discriminate|].
  destruct (fetch _ w) as [[e|resp_json] w1] eqn:Hfetch; [discriminate|].
  destruct (py_getitem resp_json "access_token") as [e|access_token] eqn:Ha; [discriminate|].
  destruct (py_getitem resp_json "id_token") as [e|id_token] eqn:Hi; [discriminate|].
  destruct (jwt_decode id_token (decode_kwargs self)) as [e|decoded] eqn:Hd; [discriminate|].
  cbv zeta. unfold dict_getitem.
  destruct (decoded !! username_claim self) as [name|] eqn:Hn; [|discriminate].
  cbn [fst]. intros [= <-].
  exists code, url, resp_json, w1, access_token, id_token, decoded, name.
  repeat split; assumption.
Qed.

(** The other direction: a run whose steps succeed returns the record. *)
Lemma authenticate_success (self : AzureAdOAuthenticator) (handler : Handler)
    (w w1 : World) (code url : string) (resp_json access_token id_token name : json)
    (decoded : gmap string json) :
  get_argument handler "code" = inr code ->
  token_url self = inr url ->
  fetch (exchange_request self handler code url) w = (inr resp_json, w1) ->
  py_getitem resp_json "access_token" = inr access_token ->
  py_getitem resp_json "id_token" = inr id_token ->
  jwt_decode id_token (decode_kwargs self) = inr decoded ->
  decoded !! username_claim self = Some name ->
  authenticate self handler w
  = (inr (identity_record name access_token decoded),
     (w1 ++ [EvLogWarning (py_repr (JObj decoded))])%list).
Proof.
  intros Hc Hu Hf Ha Hi Hd Hn.
  rewrite authenticate_steps, Hc, Hu, Hf, Ha, Hi, Hd. cbv zeta.
  unfold dict_getitem. now rewrite Hn.
Qed.

(** The result of the fetch helper is a function of the server's reply. *)
Lemma fetch_result (req : HTTPRequest) (w : World) :
  fetch req w
  = (fetch_outcome (server (requests_of w) req),
     (w ++ [EvFetch req (server (requests_of w) req)])%list).
Proof.
  unfold fetch, bind, lift, http_client_fetch, fetch_outcome.
  destruct (server (requests_of w) req) as [e|code body]; [reflexivity|].
  destruct ((200 <=? code) && (code <? 300)); [|reflexivity].
  cbn [resp_body]. now destruct (loads body).
Qed.

(** The form of the authorization-code exchange, as the token endpoint
    reads it. *)
Lemma exchange_request_form (self : AzureAdOAuthenticator) (handler : Handler)
    (code url body : string) :
  req_body (exchange_request self handler code url) = Some body ->
  form_decode body
  = [("client_id", client_id self);
     ("client_secret", client_secret self);
     ("grant_type", "authorization_code");
     ("code", code);
     ("redirect_uri", get_callback_url handler)].
Proof.
  intros [= <-]. rewrite form_decode_urlencode; [reflexivity|].
  repeat constructor.
Qed.

(** A run sends at most one request, the POST of the exchange. *)
Lemma authenticate_requests (self : AzureAdOAuthenticator) (handler : Handler)
    (w : World) :
  let sent := requests_of (snd (authenticate self handler w)) in
  sent = requests_of w
  \/ exists code url,
       get_argument handler "code" = inr code
       /\ token_url self = inr url
       /\ sent = (requests_of w ++ [exchange_request self handler code url])%list.
Proof.
  cbv zeta. rewrite authenticate_steps.
  destruct (get_argument handler "code") as [e|code]; [now left|].
  destruct (token_url self) as [e|url]; [now left|].
  right. exists code, url. split; [reflexivity|]. split; [reflexivity|].
  rewrite fetch_result.
  destruct (fetch_outcome _) as [e|resp_json]; [apply requests_of_snoc|].
  destruct (py_getitem resp_json "access_token"); [apply requests_of_snoc|].
  destruct (py_getitem resp_json "id_token"); [apply requests_of_snoc|].
  destruct (jwt_decode _ _); [apply requests_of_snoc|].
  cbv zeta.
  destruct (dict_getitem _ _); cbn [snd];
    now rewrite requests_of_log, requests_of_snoc.
Qed.

End Authenticate.

Section AuthenticateClaims.

Context `{RT : Runtime}.

(** C1. When the token endpoint answers with access token [A] and an ID
    token that decodes to the claims [{name: alice, aud: client1}], and the
    username claim is the default [name], [authenticate] returns the record
    whose username (key [name]) is [alice] and whose [auth_state] holds
    [access_token: A] and, under [user], the full claims mapping. *)
Theorem authenticate_alice (self : AzureAdOAuthenticator) (handler : Handler)
    (w w1 : World) (code url : string) (response : gmap string json) (id_token : json) :
  username_claim_config self = None ->
  get_argument handler "code" = inr code ->
  token_url self = inr url ->
  fetch (exchange_request self handler code url) w = (inr (JObj response), w1) ->
  response !! "access_token" = Some (JStr "A") ->
  response !! "id_token" = Some id_token ->
  jwt_decode id_token (decode_kwargs self)
  = inr {[ "name" := JStr "alice"; "aud" := JStr "client1" ]} ->
  fst (authenticate self handler w)
  = inr (JObj {[ "name" := JStr "alice";
                 "auth_state" :=
                   JObj {[ "access_token" := JStr "A";
                           "user" := JObj {[ "name" := JStr "alice";
                                             "aud" := JStr "client1" ]} ]} ]}).
Proof.
  intros Hclaim Hc Hu Hf Ha Hi Hd.
  assert (Ha' : py_getitem (JObj response) "access_token" = inr (JStr "A")).
  { cbn [py_getitem]. unfold dict_getitem. now rewrite Ha. }
  assert (Hi' : py_getitem (JObj response) "id_token" = inr id_token).
  { cbn [py_getitem]. unfold dict_getitem. now rewrite Hi. }
  rewrite (authenticate_success self handler w w1 code url (JObj response)
             (JStr "A") id_token (JStr "alice") _ Hc Hu Hf Ha' Hi' Hd).
  - reflexivity.
  - unfold username_claim. rewrite Hclaim. reflexivity.
Qed.

(** C2 (as the code has it). When the decoded payload lacks the configured
    username claim, [authenticate] raises [KeyError] for that claim and
    returns no record. Every record that is returned has a username entry,
    and it is the value the payload decoded from the response's ID token
    holds under the configured claim, whatever that value is. *)
Theorem username_claim_required (self : AzureAdOAuthenticator) (handler : Handler)
    (w : World) :
  (forall code url resp_json w1 access_token id_token decoded,
      get_argument handler "code" = inr code ->
      token_url self = inr url ->
      fetch (exchange_request self handler code url) w = (inr resp_json, w1) ->
      py_getitem resp_json "access_token" = inr access_token ->
      py_getitem resp_json "id_token" = inr id_token ->
      jwt_decode id_token (decode_kwargs self) = inr decoded ->
      decoded !! username_claim self = None ->
      fst (authenticate self handler w) = inl (KeyError (username_claim self)))
  /\ (forall rec,
        fst (authenticate self handler w) = inr rec ->
        exists code url resp_json w1 id_token
               (record auth_state decoded : gmap string json) (name : json),
          get_argument handler "code" = inr code
          /\ token_url self = inr url
          /\ fetch (exchange_request self handler code url) w = (inr resp_json, w1)
          /\ py_getitem resp_json "id_token" = inr id_token
          /\ jwt_decode id_token (decode_kwargs self) = inr decoded
          /\ decoded !! username_claim self = Some name
          /\ rec = JObj record
          /\ record !! "name" = Some name
          /\ record !! "auth_state" = Some (JObj auth_state)
          /\ auth_state !! "user" = Some (JObj decoded)).
Proof.
  split.
  - intros code url resp_json w1 access_token id_token decoded Hc Hu Hf Ha Hi Hd Hn.
    rewrite authenticate_steps, Hc, Hu, Hf, Ha, Hi, Hd. cbv zeta.
    unfold dict_getitem. now rewrite Hn.
  - intros rec Hrec.
    destruct (authenticate_success_inv self handler w rec Hrec)
      as (code & url & resp_json & w1 & access_token & id_token & decoded & name
          & Hc & Hu & Hf & _ & Hi & Hd & Hn & ->).
    exists code, url, resp_json, w1, id_token. eexists _, _, decoded, name.
    split; [exact Hc|]. split; [exact Hu|]. split; [exact Hf|].
    split; [exact Hi|]. split; [exact Hd|]. split; [exact Hn|].
    repeat split.
Qed.

(** C3. A JSON response without the [access_token] key or without the
    [id_token] key makes [authenticate] raise [KeyError]; a response body
    that is not JSON makes it raise too (the parse error, or the HTTP error
    when the status is not 2xx). In both cases no record is returned, and a
    record is returned only by a run in which every step succeeded. *)
Theorem malformed_token_response_fails (self : AzureAdOAuthenticator)
    (handler : Handler) (w : World) (code url : string) :
  get_argument handler "code" = inr code ->
  token_url self = inr url ->
  let req := exchange_request self handler code url in
  (forall (response : gmap string json) w1,
      fetch req w = (inr (JObj response), w1) ->
      (response !! "access_token" = None ->
         authenticate self handler w = (inl (KeyError "access_token"), w1))
      /\ (is_Some (response !! "access_token") ->
          response !! "id_token" = None ->
          authenticate self handler w = (inl (KeyError "id_token"), w1)))
  /\ (forall status body,
        server (requests_of w) req = Reply status body ->
        json_loads body = None ->
        authenticate self handler w
        = (inl (if (200 <=? status) && (status <? 300)
                then JSONDecodeError else HTTPClientError status),
           (w ++ [EvFetch req (Reply status body)])%list))
  /\ (forall rec,
        fst (authenticate self handler w) = inr rec ->
        exists response w1 access_token id_token decoded name,
          fetch req w = (inr (JObj response), w1)
          /\ response !! "access_token" = Some access_token
          /\ response !! "id_token" = Some id_token
          /\ jwt_decode id_token (decode_kwargs self) = inr decoded
          /\ decoded !! username_claim self = Some name).
Proof.
  intros Hc Hu req. split; [|split].
  - intros response w1 Hf. split.
    + intros Ha. rewrite authenticate_steps, Hc, Hu. fold req. rewrite Hf.
      cbn [py_getitem]. unfold dict_getitem. now rewrite Ha.
    + intros [a Ha] Hi. rewrite authenticate_steps, Hc, Hu. fold req. rewrite Hf.
      cbn [py_getitem]. unfold dict_getitem. now rewrite Ha, Hi.
  - intros status body Hreply Hbody.
    rewrite authenticate_steps, Hc, Hu. fold req.
    rewrite fetch_result, Hreply. cbn [fetch_outcome].
    unfold loads. rewrite Hbody.
    now destruct ((200 <=? status) && (status <? 300)).
  - intros rec Hrec.
    destruct (authenticate_success_inv self handler w rec Hrec)
      as (code' & url' & resp_json & w1 & access_token & id_token & decoded & name
          & Hc' & Hu' & Hf & Ha & Hi & Hd & Hn & _).
    rewrite Hc in Hc'. injection Hc' as <-.
    rewrite Hu in Hu'. injection Hu' as <-.
    destruct resp_json as [| | | | | |response]; try discriminate Ha.
    cbn [py_getitem] in Ha, Hi. unfold dict_getitem in Ha, Hi.
    destruct (response !! "access_token") as [a|] eqn:Ea; [|discriminate Ha].
    destruct (response !! "id_token") as [i|] eqn:Ei; [|discriminate Hi].
    injection Ha as ->. injection Hi as ->.
    exists response, w1, access_token, id_token, decoded, name.
    repeat split; assumption.
Qed.

(** In the pyjwt >= 2 branch the decoder is called with signature
    verification switched off and the client identifier as the expected
    audience. *)
Lemma pyjwt2_decoder_call (self : AzureAdOAuthenticator) :
  PYJWT_2 = true ->
  decode_kwargs self
  = mkKwargs (Some {[ "verify_signature" := false ]}) (Some (client_id self)) None.
Proof. intros H. unfold decode_kwargs. now rewrite H. Qed.

(** In the pyjwt 1.x branch the decoder is called with [verify=False] and
    no audience. *)
Lemma legacy_decoder_call (self : AzureAdOAuthenticator) :
  PYJWT_2 = false -> decode_kwargs self = mkKwargs None None (Some false).
Proof. intros H. unfold decode_kwargs. now rewrite H. Qed.

(** The result of a run depends on the world only through what the
    exchange yields. *)
Lemma authenticate_depends_on_fetch (self : AzureAdOAuthenticator) (handler : Handler)
    (w w' : World) :
  (forall code url,
      fst (fetch (exchange_request self handler code url) w')
      = fst (fetch (exchange_request self handler code url) w)) ->
  fst (authenticate self handler w') = fst (authenticate self handler w).
Proof.
  intros Hsame. rewrite !authenticate_steps.
  destruct (get_argument handler "code") as [e|code]; [reflexivity|].
  destruct (token_url self) as [e|url]; [reflexivity|].
  specialize (Hsame code url).
  destruct (fetch _ w') as [r' w1'], (fetch _ w) as [r w1].
  cbn [fst] in Hsame. subst r'.
  destruct r as [e|resp_json]; [reflexivity|].
  destruct (py_getitem resp_json "access_token") as [e|access_token]; [reflexivity|].
  destruct (py_getitem resp_json "id_token") as [e|id_token]; [reflexivity|].
  destruct (jwt_decode id_token (decode_kwargs self)) as [e|decoded]; [reflexivity|].
  cbv zeta.
  now destruct (dict_getitem decoded (username_claim self)).
Qed.

(** With the fetch helper of section 4.2 that is the reply of the token
    endpoint. *)
Lemma authenticate_depends_on_reply (self : AzureAdOAuthenticator) (handler : Handler)
    (w w' : World) :
  (forall code url,
      server (requests_of w') (exchange_request self handler code url)
      = server (requests_of w) (exchange_request self handler code url)) ->
  fst (authenticate self handler w') = fst (authenticate self handler w).
Proof.
  intros Hsame. apply authenticate_depends_on_fetch.
  intros code url. rewrite !fetch_result. cbn [fst]. now rewrite Hsame.
Qed.

(** C10. Every record [authenticate] returns has exactly the keys [name]
    and [auth_state]; [auth_state] has exactly the keys [access_token] and
    [user]; the access token is the value the token endpoint sent under
    [access_token], [user] is the decoded claims mapping, the username is
    the value of the configured claim in it, and the raw ID token is not a
    field of the record. *)
Theorem identity_record_invariant (self : AzureAdOAuthenticator) (handler : Handler)
    (w : World) (rec : json) :
  fst (authenticate self handler w) = inr rec ->
  exists code url resp_json w1 access_token name (record auth_state decoded : gmap string json),
    fetch (exchange_request self handler code url) w = (inr resp_json, w1)
    /\ py_getitem resp_json "access_token" = inr access_token
    /\ rec = JObj record
    /\ record = {[ "name" := name; "auth_state" := JObj auth_state ]}
    /\ auth_state = {[ "access_token" := access_token; "user" := JObj decoded ]}
    /\ decoded !! username_claim self = Some name
    /\ dom record = {[ "name"; "auth_state" ]}
    /\ dom auth_state = {[ "access_token"; "user" ]}
    /\ record !! "id_token" = None
    /\ auth_state !! "id_token" = None.
Proof.
  intros Hrec.
  destruct (authenticate_success_inv self handler w rec Hrec)
    as (code & url & resp_json & w1 & access_token & id_token & decoded & name
        & _ & _ & Hf & Ha & _ & _ & Hn & ->).
  exists code, url, resp_json, w1, access_token, name.
  eexists _, _, decoded.
  split; [exact Hf|]. split; [exact Ha|].
  split; [reflexivity|]. split; [reflexivity|]. split; [reflexivity|].
  split; [exact Hn|].
  split; [|split; [|split; reflexivity]].
  - rewrite dom_insert_L, dom_singleton_L. reflexivity.
  - rewrite dom_insert_L, dom_singleton_L. reflexivity.
Qed.

End AuthenticateClaims.

(** ** The properties on the stub provider *)

Lemma authenticate_alice_witness :
  fst (authenticate (RT := Stub.provider Stub.alice_token) (Stub.azure 1) Stub.callback [])
  = inr (JObj {[ "name" := JStr "alice";
                 "auth_state" :=
                   JObj {[ "access_token" := JStr "A";
                           "user" := JObj {[ "name" := JStr "alice";
                                             "aud" := JStr "client1" ]} ]} ]}).
Proof.
  eapply (authenticate_alice (RT := Stub.provider Stub.alice_token)
            (Stub.azure 1) Stub.callback []); reflexivity.
Defined.

(** C2, the failing case: a payload whose [name] claim is the empty string
    is accepted, and the caller receives a record with an empty username. *)
Lemma empty_username_is_returned :
  Stub.payload_of (JStr Stub.blank_token)
  = Some {[ "name" := JStr ""; "aud" := JStr "client1" ]}
  /\ fst (authenticate (RT := Stub.provider Stub.blank_token)
            (Stub.azure 1) Stub.callback [])
     = inr (JObj {[ "name" := JStr "";
                    "auth_state" :=
                      JObj {[ "access_token" := JStr "A";
                              "user" := JObj {[ "name" := JStr "";
                                                "aud" := JStr "client1" ]} ]} ]}).
Proof. split; reflexivity. Qed.

Lemma username_claim_required_witness :
  Stub.nameless_claims !! "name" = None
  /\ fst (authenticate (RT := Stub.provider Stub.nameless_token)
            (Stub.azure 1) Stub.callback [])
     = inl (KeyError "name")
  /\ exists (decoded : gmap string json) (name : json),
       jwt_decode (Runtime := Stub.provider Stub.alice_token) (JStr Stub.alice_token)
         (decode_kwargs (RT := Stub.provider Stub.alice_token) (Stub.azure 1))
       = inr decoded
       /\ decoded !! "name" = Some name
       /\ fst (authenticate (RT := Stub.provider Stub.alice_token)
                 (Stub.azure 1) Stub.callback [])
          = inr (identity_record name (JStr "A") decoded).
Proof.
  split; [reflexivity|]. split.
  - destruct (username_claim_required (RT := Stub.provider Stub.nameless_token)
                (Stub.azure 1) Stub.callback []) as [Hmissing _].
    eapply Hmissing; reflexivity.
  - destruct (username_claim_required (RT := Stub.provider Stub.alice_token)
                (Stub.azure 1) Stub.callback []) as [_ Hpresent].
    destruct (Hpresent (identity_record (JStr "alice") (JStr "A") Stub.alice_claims) eq_refl)
      as (code & url & resp_json & w1 & id_token & record & auth_state & decoded & name
          & _ & _ & Hf & Hi & Hd & Hn & Hrec & Hname & Hauth & Huser).
    injection Hf as <- _. injection Hi as <-.
    exists decoded, name. split; [exact Hd|]. split; [exact Hn|].
    injection Hrec as <-.
    vm_compute in Hname. injection Hname as <-.
    vm_compute in Hauth. injection Hauth as <-.
    vm_compute in Huser. injection Huser as <-.
    reflexivity.
Defined.

Lemma malformed_token_response_fails_witness :
  fst (authenticate (RT := Stub.endpoint Stub.html_body) (Stub.azure 1) Stub.callback [])
  = inl JSONDecodeError
  /\ fst (authenticate (RT := Stub.endpoint Stub.no_access_token_body)
            (Stub.azure 1) Stub.callback [])
     = inl (KeyError "access_token")
  /\ fst (authenticate (RT := Stub.endpoint Stub.no_id_token_body)
            (Stub.azure 1) Stub.callback [])
     = inl (KeyError "id_token").
Proof.
  split; [|split].
  - destruct (malformed_token_response_fails (RT := Stub.endpoint Stub.html_body)
                (Stub.azure 1) Stub.callback [] "c0de"
                "https://login.microsoftonline.com/abc/oauth2/token" eq_refl eq_refl)
      as (_ & Hbody & _).
    rewrite (Hbody 200 Stub.html_body eq_refl eq_refl). reflexivity.
  - destruct (malformed_token_response_fails (RT := Stub.endpoint Stub.no_access_token_body)
                (Stub.azure 1) Stub.callback [] "c0de"
                "https://login.microsoftonline.com/abc/oauth2/token" eq_refl eq_refl)
      as (Hkeys & _ & _).
    edestruct Hkeys as [Haccess _]; [reflexivity|].
    rewrite Haccess; reflexivity.
  - destruct (malformed_token_response_fails (RT := Stub.endpoint Stub.no_id_token_body)
                (Stub.azure 1) Stub.callback [] "c0de"
                "https://login.microsoftonline.com/abc/oauth2/token" eq_refl eq_refl)
      as (Hkeys & _ & _).
    edestruct Hkeys as [_ Hid]; [reflexivity|].
    rewrite Hid; [reflexivity | eexists; reflexivity | reflexivity].
Defined.

(** C6, at the failing input. [authenticate] hands the client identifier to
    the decoder as the expected audience, but next to
    [verify_signature: False]. A decoder that validates the audience when
    [verify_aud] is on, with [verify_aud] defaulting to [verify_signature],
    rejects a foreign audience when asked to, yet under the arguments
    [authenticate] passes it lets the token through: for client [client1] a
    record is returned for an ID token issued to [other-app]. *)
Lemma foreign_audience_accepted :
  PYJWT_2 (Runtime := Stub.provider Stub.foreign_token) = true
  /\ client_id (Stub.azure 1) = "client1"
  /\ Stub.payload_of (JStr Stub.foreign_token)
     = Some {[ "name" := JStr "mallory"; "aud" := JStr "other-app" ]}
  /\ Stub.decode_option_defaults (JStr Stub.foreign_token)
       (mkKwargs (Some {[ "verify_signature" := false; "verify_aud" := true ]})
          (Some "client1") None)
     = inl (PyJWTError "InvalidAudienceError")
  /\ fst (authenticate (RT := Stub.provider Stub.foreign_token)
            (Stub.azure 1) Stub.callback [])
     = inr (JObj {[ "name" := JStr "mallory";
                    "auth_state" :=
                      JObj {[ "access_token" := JStr "A";
                              "user" := JObj {[ "name" := JStr "mallory";
                                                "aud" := JStr "other-app" ]} ]} ]}).
Proof. repeat split. Qed.

Lemma identity_record_invariant_witness :
  exists (record auth_state : gmap string json),
    fst (authenticate (RT := Stub.provider Stub.alice_token) (Stub.azure 1) Stub.callback [])
    = inr (JObj record)
    /\ record !! "auth_state" = Some (JObj auth_state)
    /\ dom auth_state = {[ "access_token"; "user" ]}
    /\ auth_state !! "access_token" = Some (JStr "A").
Proof.
  destruct (identity_record_invariant (RT := Stub.provider Stub.alice_token)
              (Stub.azure 1) Stub.callback []
              (identity_record (JStr "alice") (JStr "A") Stub.alice_claims) eq_refl)
    as (code & url & resp_json & w1 & access_token & name & record & auth_state & decoded
        & Hf & Ha & Hrec & Hrecord & Hauth & _ & _ & Hdom & _).
  exists record, auth_state.
  injection Hrec as Hrec.
  split; [now rewrite <- Hrec|].
  split; [now rewrite Hrecord|].
  split; [exact Hdom|].
  rewrite Hauth. injection Hf as <- _. injection Ha as <-. reflexivity.
Defined.

(** When the token endpoint changes its answer, so does the second run. *)
Example second_run_follows_the_endpoint :
  let RT := Stub.runtime true Stub.decode_option_defaults
              (Stub.one_shot_server (Stub.tokens_body Stub.alice_token)) in
  let first_run := authenticate (Stub.azure 1) Stub.callback [] in
  fst first_run = inr (identity_record (JStr "alice") (JStr "A") Stub.alice_claims)
  /\ fst (authenticate (Stub.azure 1) Stub.callback (snd first_run))
     = inl (HTTPClientError 503).
Proof. split; reflexivity. Qed.

(** * Further properties *)

(** ** The directory lookup, step by step *)

Section LookupRuns.

Context `{RT : Runtime}.

(** The HTTP client followed by the JSON reader is [fetch_outcome] of the
    server's reply. *)
Lemma http_then_loads (req : HTTPRequest) (w : World) :
  (let '(r, w1) := http_client_fetch req w in
   match r with
   | inr resp => (loads (resp_body resp), w1)
   | inl e => (inl e, w1)
   end)
  = (fetch_outcome (server (requests_of w) req),
     (w ++ [EvFetch req (server (requests_of w) req)])%list).
Proof.
  unfold http_client_fetch, fetch_outcome.
  destruct (server (requests_of w) req) as [e|code body]; [reflexivity|].
  now destruct ((200 <=? code) && (code <? 300)).
Qed.

Lemma get_user_attributes_steps (self : AzureAdOAuthenticator) (oid : string) (w : World) :
  get_user_attributes self oid w =
    match token_url self with
    | inl e => (inl e, w)
    | inr url =>
        let req1 := credentials_request self url in
        let reply1 := server (requests_of w) req1 in
        let w1 := (w ++ [EvFetch req1 reply1])%list in
        match fetch_outcome reply1 with
        | inl e => (inl e, w1)
        | inr grant =>
            match py_getitem grant "access_token" with
            | inl e => (inl e, w1)
            | inr access_token =>
                let req2 := profile_request oid (py_format access_token) in
                let reply2 := server (requests_of w1) req2 in
                (fetch_outcome reply2, (w1 ++ [EvFetch req2 reply2])%list)
            end
        end
    end.
Proof.
  unfold get_user_attributes, bind, lift, ret.
  destruct (token_url self) as [e|url]; [reflexivity|].
  fold (credentials_request self url). cbv zeta.
  pose proof (http_then_loads (credentials_request self url) w) as H1.
  destruct (http_client_fetch (credentials_request self url) w) as [[e|resp] w1].
  { injection H1 as <- <-. reflexivity. }
  destruct (loads (resp_body resp)) as [e|grant]; injection H1 as <- <-; [reflexivity|].
  destruct (py_getitem grant "access_token") as [e|access_token]; [reflexivity|].
  fold (profile_request oid (py_format access_token)).
  match goal with
  | |- context [http_client_fetch ?r ?v] =>
      pose proof (http_then_loads r v) as H2;
      destruct (http_client_fetch r v) as [[e|resp2] w2]
  end.
  { injection H2 as <- <-. reflexivity. }
  destruct (loads (resp_body resp2)); injection H2 as <- <-; reflexivity.
Qed.

End LookupRuns.

Section LookupFailures.

Context `{RT : Runtime}.

(** X1. When the call to the token endpoint ends without a response, the
    lookup raises the exception of the HTTP client (a refused connection,
    a timeout); when the endpoint answers outside 2xx, it raises the HTTP
    error with that status. Either way it stops after that single request:
    the directory API is never contacted. *)
Theorem lookup_stops_on_token_endpoint_failure (self : AzureAdOAuthenticator)
    (oid : string) (w : World) (url : string) :
  token_url self = inr url ->
  let req1 := credentials_request self url in
  let reply := server (requests_of w) req1 in
  let w1 := (w ++ [EvFetch req1 reply])%list in
  (forall e,
      reply = NoResponse e ->
      get_user_attributes self oid w = (inl e, w1))
  /\ (forall code body,
        reply = Reply code body ->
        ~ (200 <= code < 300) ->
        get_user_attributes self oid w = (inl (HTTPClientError code), w1)).
Proof.
  intros Hurl req1 reply w1. subst w1 reply. split.
  - intros e Hreply. rewrite get_user_attributes_steps, Hurl. cbv zeta.
    fold req1. now rewrite Hreply.
  - intros code body Hreply Hcode. rewrite get_user_attributes_steps, Hurl. cbv zeta.
    fold req1. rewrite Hreply. cbn [fetch_outcome].
    destruct (Z.leb_spec 200 code), (Z.ltb_spec code 300); try reflexivity.
    exfalso. apply Hcode. lia.
Qed.

(** X2. When the token endpoint answers 2xx with a body that is not JSON,
    with a JSON object that has no [access_token], or with JSON that is not
    an object, the lookup raises the parse error, [KeyError] for
    [access_token], or [TypeError]; in each case after that single request,
    without calling the directory API. *)
Theorem lookup_stops_on_unusable_grant (self : AzureAdOAuthenticator)
    (oid : string) (w : World) (url : string) (code : Z) (body : string) :
  token_url self = inr url ->
  let req1 := credentials_request self url in
  let w1 := (w ++ [EvFetch req1 (Reply code body)])%list in
  server (requests_of w) req1 = Reply code body ->
  200 <= code < 300 ->
  (json_loads body = None ->
     get_user_attributes self oid w = (inl JSONDecodeError, w1))
  /\ (forall grant : gmap string json,
        json_loads body = Some (JObj grant) ->
        grant !! "access_token" = None ->
        get_user_attributes self oid w = (inl (KeyError "access_token"), w1))
  /\ (forall v,
        json_loads body = Some v ->
        (forall grant, v <> JObj grant) ->
        get_user_attributes self oid w = (inl TypeError, w1)).
Proof.
  intros Hurl req1 w1 Hreply Hcode.
  assert (H2xx : (200 <=? code) && (code <? 300) = true).
  { destruct (Z.leb_spec 200 code), (Z.ltb_spec code 300); try reflexivity; lia. }
  assert (Hsteps : forall r, loads body = r ->
            get_user_attributes self oid w =
              match r with
              | inl e => (inl e, w1)
              | inr grant =>
                  match py_getitem grant "access_token" with
                  | inl e => (inl e, w1)
                  | inr access_token =>
                      let req2 := profile_request oid (py_format access_token) in
                      let reply2 := server (requests_of w1) req2 in
                      (fetch_outcome reply2, (w1 ++ [EvFetch req2 reply2])%list)
                  end
              end).
  { intros r <-. rewrite get_user_attributes_steps, Hurl. cbv zeta.
    fold req1. rewrite Hreply. cbn [fetch_outcome]. now rewrite H2xx. }
  split; [|split].
  - intros Hbody. rewrite (Hsteps (inl JSONDecodeError)); [reflexivity|].
    unfold loads. now rewrite Hbody.
  - intros grant Hbody Hkey. rewrite (Hsteps (inr (JObj grant))).
    + cbn [py_getitem]. unfold dict_getitem. now rewrite Hkey.
    + unfold loads. now rewrite Hbody.
  - intros v Hbody Hv. rewrite (Hsteps (inr v)).
    + destruct v; try reflexivity. now destruct (Hv m).
    + unfold loads. now rewrite Hbody.
Qed.

(** X3. When the token endpoint granted a token but the call to the
    directory API ends without a response, or with a status outside 2xx, or
    with a body that is not JSON, the lookup raises the client's exception,
    the HTTP error with that status, or the parse error, after both
    requests, and returns no attributes. The token is interpolated into the
    [Bearer] header as it is when it is a string and through [repr]
    otherwise. *)
Theorem lookup_fails_with_directory_api (self : AzureAdOAuthenticator)
    (oid : string) (w : World) (url : string) (code1 : Z) (body1 : string)
    (grant access_token : json) :
  token_url self = inr url ->
  let req1 := credentials_request self url in
  let w1 := (w ++ [EvFetch req1 (Reply code1 body1)])%list in
  server (requests_of w) req1 = Reply code1 body1 ->
  200 <= code1 < 300 ->
  json_loads body1 = Some grant ->
  py_getitem grant "access_token" = inr access_token ->
  let req2 :=
    mkRequest ("https://graph.microsoft.com/v1.0/users/" ++ oid) GET
      [("Authorization", "Bearer " ++ py_format access_token)] None in
  let reply2 := server (requests_of w1) req2 in
  let w2 := (w1 ++ [EvFetch req2 reply2])%list in
  (forall e,
      reply2 = NoResponse e ->
      get_user_attributes self oid w = (inl e, w2))
  /\ (forall code2 body2,
        reply2 = Reply code2 body2 ->
        ~ (200 <= code2 < 300) ->
        get_user_attributes self oid w = (inl (HTTPClientError code2), w2))
  /\ (forall code2 body2,
        reply2 = Reply code2 body2 ->
        200 <= code2 < 300 ->
        json_loads body2 = None ->
        get_user_attributes self oid w = (inl JSONDecodeError, w2)).
Proof.
  intros Hurl req1 w1 Hreply Hcode Hbody Htok req2 reply2 w2.
  assert (H2xx : (200 <=? code1) && (code1 <? 300) = true).
  { destruct (Z.leb_spec 200 code1), (Z.ltb_spec code1 300); try reflexivity; lia. }
  assert (Hrun : get_user_attributes self oid w = (fetch_outcome reply2, w2)).
  { rewrite get_user_attributes_steps, Hurl. cbv zeta.
    fold req1. rewrite Hreply. cbn [fetch_outcome]. rewrite H2xx.
    unfold loads. rewrite Hbody, Htok. reflexivity. }
  rewrite Hrun. split; [|split].
  - now intros e ->.
  - intros code2 body2 -> Hc. cbn [fetch_outcome].
    destruct (Z.leb_spec 200 code2), (Z.ltb_spec code2 300); try reflexivity.
    exfalso. apply Hc. lia.
  - intros code2 body2 -> Hc Hb. cbn [fetch_outcome].
    destruct (Z.leb_spec 200 code2), (Z.ltb_spec code2 300); try lia.
    cbn [andb]. unfold loads. now rewrite Hb.
Qed.

(** X4. Whatever the servers answer, the lookup adds to the trace nothing,
    or the client-credentials POST, or that POST followed by one GET; it
    never sends a third request and never writes to the log. *)
Theorem lookup_trace_shape (self : AzureAdOAuthenticator) (oid : string) (w : World) :
  let w' := snd (get_user_attributes self oid w) in
  log_lines_of w' = log_lines_of w
  /\ (w' = w
      \/ exists url reply1,
           token_url self = inr url
           /\ (w' = (w ++ [EvFetch (credentials_request self url) reply1])%list
               \/ exists req2 reply2,
                    req_method req2 = GET
                    /\ w' = (w ++ [EvFetch (credentials_request self url) reply1;
                                   EvFetch req2 reply2])%list)).
Proof.
  cbv zeta. rewrite get_user_attributes_steps.
  assert (Hlog : forall req reply v,
            log_lines_of (v ++ [EvFetch req reply])%list = log_lines_of v).
  { intros req reply v. unfold log_lines_of. rewrite omap_app. cbn.
    now rewrite app_nil_r. }
  destruct (token_url self) as [e|url]; [split; [reflexivity|now left]|].
  cbv zeta.
  destruct (fetch_outcome _) as [e|grant].
  { cbn [snd]. split; [apply Hlog|]. right. eexists url, _. split; [reflexivity|now left]. }
  destruct (py_getitem grant "access_token") as [e|access_token].
  { cbn [snd]. split; [apply Hlog|]. right. eexists url, _. split; [reflexivity|now left]. }
  cbn [snd]. split; [now rewrite !Hlog|].
  right. eexists url, _. split; [reflexivity|]. right.
  eexists (profile_request oid (py_format access_token)), _.
  split; [reflexivity|]. now rewrite <- app_assoc.
Qed.

End LookupFailures.

Lemma lookup_stops_on_token_endpoint_failure_witness :
  get_user_attributes (RT := Stub.lookup_runtime Stub.refusing_server) (Stub.azure 1) "0a1b" []
  = (inl ConnectionRefusedError,
     [EvFetch (credentials_request (Stub.azure 1)
                 "https://login.microsoftonline.com/abc/oauth2/token")
        (NoResponse ConnectionRefusedError)])
  /\ fst (get_user_attributes
            (RT := Stub.lookup_runtime (Stub.status_server 503 Stub.html_body))
            (Stub.azure 1) "0a1b" [])
     = inl (HTTPClientError 503).
Proof.
  split.
  - destruct (lookup_stops_on_token_endpoint_failure
                (RT := Stub.lookup_runtime Stub.refusing_server) (Stub.azure 1) "0a1b" []
                "https://login.microsoftonline.com/abc/oauth2/token" eq_refl)
      as [Hrefused _].
    exact (Hrefused ConnectionRefusedError eq_refl).
  - destruct (lookup_stops_on_token_endpoint_failure
                (RT := Stub.lookup_runtime (Stub.status_server 503 Stub.html_body))
                (Stub.azure 1) "0a1b" []
                "https://login.microsoftonline.com/abc/oauth2/token" eq_refl)
      as [_ Hstatus].
    rewrite (Hstatus 503 Stub.html_body eq_refl); [reflexivity | lia].
Defined.

Lemma lookup_stops_on_unusable_grant_witness :
  fst (get_user_attributes
         (RT := Stub.lookup_runtime (Stub.constant_server Stub.html_body))
         (Stub.azure 1) "0a1b" [])
  = inl JSONDecodeError
  /\ fst (get_user_attributes
            (RT := Stub.lookup_runtime (Stub.constant_server Stub.no_access_token_body))
            (Stub.azure 1) "0a1b" [])
     = inl (KeyError "access_token")
  /\ fst (get_user_attributes (RT := Stub.array_endpoint) (Stub.azure 1) "0a1b" [])
     = inl TypeError.
Proof.
  split; [|split].
  - destruct (lookup_stops_on_unusable_grant
                (RT := Stub.lookup_runtime (Stub.constant_server Stub.html_body))
                (Stub.azure 1) "0a1b" []
                "https://login.microsoftonline.com/abc/oauth2/token" 200 Stub.html_body
                eq_refl eq_refl) as (H & _ & _); [lia|].
    rewrite (H eq_refl). reflexivity.
  - destruct (lookup_stops_on_unusable_grant
                (RT := Stub.lookup_runtime (Stub.constant_server Stub.no_access_token_body))
                (Stub.azure 1) "0a1b" []
                "https://login.microsoftonline.com/abc/oauth2/token" 200
                Stub.no_access_token_body eq_refl eq_refl) as (_ & H & _); [lia|].
    erewrite H; reflexivity.
  - destruct (lookup_stops_on_unusable_grant (RT := Stub.array_endpoint)
                (Stub.azure 1) "0a1b" []
                "https://login.microsoftonline.com/abc/oauth2/token" 200 "[]"
                eq_refl eq_refl) as (_ & _ & H); [lia|].
    rewrite (H (JArr []) eq_refl); [reflexivity | discriminate].
Defined.

Lemma lookup_fails_with_directory_api_witness :
  fst (get_user_attributes (RT := Stub.lookup_runtime Stub.directory_down_server)
         (Stub.azure 1) "0a1b" [])
  = inl (HTTPClientError 404)
  /\ requests_of (snd (get_user_attributes
                         (RT := Stub.lookup_runtime Stub.directory_down_server)
                         (Stub.azure 1) "0a1b" []))
     = [credentials_request (Stub.azure 1)
          "https://login.microsoftonline.com/abc/oauth2/token";
        profile_request "0a1b" "G"]
  /\ fst (get_user_attributes (RT := Stub.lookup_runtime Stub.directory_refusing_server)
            (Stub.azure 1) "0a1b" [])
     = inl ConnectionRefusedError.
Proof.
  destruct (lookup_fails_with_directory_api
              (RT := Stub.lookup_runtime Stub.directory_down_server)
              (Stub.azure 1) "0a1b" []
              "https://login.microsoftonline.com/abc/oauth2/token" 200 Stub.graph_token_body
              (Stub.string_fields [("access_token", "G")]) (JStr "G")
              eq_refl eq_refl) as (_ & H & _); [lia | reflexivity | reflexivity |].
  destruct (lookup_fails_with_directory_api
              (RT := Stub.lookup_runtime Stub.directory_refusing_server)
              (Stub.azure 1) "0a1b" []
              "https://login.microsoftonline.com/abc/oauth2/token" 200 Stub.graph_token_body
              (Stub.string_fields [("access_token", "G")]) (JStr "G")
              eq_refl eq_refl) as (Hrefused & _ & _); [lia | reflexivity | reflexivity |].
  rewrite (H 404 Stub.html_body eq_refl) by lia.
  rewrite (Hrefused ConnectionRefusedError eq_refl).
  repeat split.
Defined.

(** ** More on [authenticate] *)

Section AuthenticateEdges.

Context `{RT : Runtime}.

(** X5. Without a [code] argument in the callback [authenticate] raises
    the missing-argument error for [code] first: no request is sent and
    nothing is logged, whatever the configuration, an invalid API version
    included. *)
Theorem authenticate_without_code (self : AzureAdOAuthenticator) (handler : Handler)
    (w : World) :
  handler_arguments handler "code" = None ->
  authenticate self handler w = (inl (MissingArgumentError "code"), w).
Proof.
  intros Hcode. rewrite authenticate_steps. unfold get_argument. now rewrite Hcode.
Qed.

(** X6. Once the code is there and the token URL resolves, [authenticate]
    sends exactly one request, whatever the endpoint answers and whether or
    not the ID token decodes: a POST to the token URL with the form content
    type, whose body reads back as exactly [client_id], [client_secret],
    [grant_type=authorization_code], [code] and [redirect_uri], in this
    order, for arbitrary bytes in these values. *)
Theorem exchange_sent_once (self : AzureAdOAuthenticator) (handler : Handler)
    (w : World) (code url : string) :
  get_argument handler "code" = inr code ->
  token_url self = inr url ->
  exists req body,
    requests_of (snd (authenticate self handler w)) = (requests_of w ++ [req])%list
    /\ req_url req = url
    /\ req_method req = POST
    /\ req_headers req
       = [("Content-Type", "application/x-www-form-urlencoded; charset=UTF-8")]
    /\ req_body req = Some body
    /\ form_decode body
       = [("client_id", client_id self);
          ("client_secret", client_secret self);
          ("grant_type", "authorization_code");
          ("code", code);
          ("redirect_uri", get_callback_url handler)].
Proof.
  intros Hc Hu.
  exists (exchange_request self handler code url). eexists.
  split; [|split; [reflexivity|split; [reflexivity|split; [reflexivity|split;
    [reflexivity|]]]]].
  - rewrite authenticate_steps, Hc, Hu, fetch_result.
    destruct (fetch_outcome _) as [e|resp_json]; [apply requests_of_snoc|].
    destruct (py_getitem resp_json "access_token"); [apply requests_of_snoc|].
    destruct (py_getitem resp_json "id_token"); [apply requests_of_snoc|].
    destruct (jwt_decode _ _); [apply requests_of_snoc|].
    cbv zeta.
    destruct (dict_getitem _ _); cbn [snd];
      now rewrite requests_of_log, requests_of_snoc.
  - rewrite form_decode_urlencode; [reflexivity|]. repeat constructor.
Qed.

(** X7. The decoded claims are logged exactly when the ID token decodes:
    one warning line with their [repr], written before the username claim
    is looked up, so also by a run that then fails for lack of that claim.
    When the decoder raises, nothing is logged. *)
Theorem claims_logged_when_decoded (self : AzureAdOAuthenticator) (handler : Handler)
    (w w1 : World) (code url : string) (resp_json access_token id_token : json) :
  get_argument handler "code" = inr code ->
  token_url self = inr url ->
  fetch (exchange_request self handler code url) w = (inr resp_json, w1) ->
  py_getitem resp_json "access_token" = inr access_token ->
  py_getitem resp_json "id_token" = inr id_token ->
  (forall decoded,
      jwt_decode id_token (decode_kwargs self) = inr decoded ->
      snd (authenticate self handler w)
      = (w1 ++ [EvLogWarning (py_repr (JObj decoded))])%list)
  /\ (forall e,
        jwt_decode id_token (decode_kwargs self) = inl e ->
        authenticate self handler w = (inl e, w1)).
Proof.
  intros Hc Hu Hf Ha Hi. split.
  - intros decoded Hd. rewrite authenticate_steps, Hc, Hu, Hf, Ha, Hi, Hd. cbv zeta.
    now destruct (dict_getitem decoded (username_claim self)).
  - intros e Hd. now rewrite authenticate_steps, Hc, Hu, Hf, Ha, Hi, Hd.
Qed.

(** X8. A token-endpoint response that is valid JSON but not an object (an
    array, a string, a number, [null]) makes [authenticate] raise
    [TypeError] at the first subscript; nothing is decoded or logged. *)
Theorem non_object_response_rejected (self : AzureAdOAuthenticator) (handler : Handler)
    (w w1 : World) (code url : string) (resp_json : json) :
  get_argument handler "code" = inr code ->
  token_url self = inr url ->
  fetch (exchange_request self handler code url) w = (inr resp_json, w1) ->
  (forall response, resp_json <> JObj response) ->
  authenticate self handler w = (inl TypeError, w1).
Proof.
  intros Hc Hu Hf Hshape. rewrite authenticate_steps, Hc, Hu, Hf.
  destruct resp_json; try reflexivity. now destruct (Hshape m).
Qed.

(** X9. A token URL that is configured explicitly is used as it is: the
    default method is not consulted, so neither the tenant nor the API
    version matters, and an invalid version raises nothing. Both operations
    send their POST to the configured URL. *)
Theorem configured_token_url_used (self : AzureAdOAuthenticator) (handler : Handler)
    (oid : string) (w : World) (code url : string) :
  token_url_config self = Some url ->
  get_argument handler "code" = inr code ->
  token_url self = inr url
  /\ requests_of (snd (authenticate self handler w))
     = (requests_of w ++ [exchange_request self handler code url])%list
  /\ exists rest,
       requests_of (snd (get_user_attributes self oid w))
       = (requests_of w ++ credentials_request self url :: rest)%list.
Proof.
  intros Hcfg Hc.
  assert (Hu : token_url self = inr url) by (unfold token_url; now rewrite Hcfg).
  split; [exact Hu|]. split.
  - rewrite authenticate_steps, Hc, Hu, fetch_result.
    destruct (fetch_outcome _) as [e|resp_json]; [apply requests_of_snoc|].
    destruct (py_getitem resp_json "access_token"); [apply requests_of_snoc|].
    destruct (py_getitem resp_json "id_token"); [apply requests_of_snoc|].
    destruct (jwt_decode _ _); [apply requests_of_snoc|].
    cbv zeta.
    destruct (dict_getitem _ _); cbn [snd];
      now rewrite requests_of_log, requests_of_snoc.
  - rewrite get_user_attributes_steps, Hu. cbv zeta.
    destruct (fetch_outcome _) as [e|grant].
    { exists []. apply requests_of_snoc. }
    destruct (py_getitem grant "access_token") as [e|access_token].
    { exists []. apply requests_of_snoc. }
    eexists [_]. cbn [snd]. now rewrite !requests_of_snoc, <- app_assoc.
Qed.

End AuthenticateEdges.

Lemma authenticate_without_code_witness :
  authenticate (RT := Stub.provider Stub.alice_token) (Stub.azure 3) Stub.bare_callback []
  = (inl (MissingArgumentError "code"), []).
Proof.
  apply (authenticate_without_code (RT := Stub.provider Stub.alice_token)
           (Stub.azure 3) Stub.bare_callback []).
  reflexivity.
Defined.

Lemma exchange_sent_once_witness :
  exists req body,
    requests_of (snd (authenticate (RT := Stub.endpoint Stub.html_body)
                        (Stub.azure 1) Stub.callback []))
    = [req]
    /\ req_body req = Some body
    /\ body = "client_id=client1&client_secret=s3cret&grant_type=authorization_code&code=c0de&redirect_uri=https%3A%2F%2Fhub.example.org%2Fhub%2Foauth_callback".
Proof.
  destruct (exchange_sent_once (RT := Stub.endpoint Stub.html_body)
              (Stub.azure 1) Stub.callback [] "c0de"
              "https://login.microsoftonline.com/abc/oauth2/token" eq_refl eq_refl)
    as (req & body & Hsent & _ & _ & _ & Hbody & _).
  exists req, body. split; [exact Hsent|]. split; [exact Hbody|].
  cbn [requests_of omap app] in Hsent.
  assert (Hreq : req = exchange_request (RT := Stub.endpoint Stub.html_body)
                         (Stub.azure 1) Stub.callback "c0de"
                         "https://login.microsoftonline.com/abc/oauth2/token").
  { vm_compute in Hsent. injection Hsent as Hsent. rewrite <- Hsent. reflexivity. }
  rewrite Hreq in Hbody. injection Hbody as <-. reflexivity.
Defined.

Lemma claims_logged_when_decoded_witness :
  authenticate (RT := Stub.provider Stub.nameless_token) (Stub.azure 1) Stub.callback []
  = (inl (KeyError "name"),
     [EvFetch
        (exchange_request (RT := Stub.provider Stub.nameless_token) (Stub.azure 1)
           Stub.callback "c0de" "https://login.microsoftonline.com/abc/oauth2/token")
        (Reply 200 (Stub.tokens_body Stub.nameless_token));
      EvLogWarning "<repr>"]).
Proof.
  destruct (claims_logged_when_decoded (RT := Stub.provider Stub.nameless_token)
              (Stub.azure 1) Stub.callback []
              [EvFetch
                 (exchange_request (RT := Stub.provider Stub.nameless_token) (Stub.azure 1)
                    Stub.callback "c0de" "https://login.microsoftonline.com/abc/oauth2/token")
                 (Reply 200 (Stub.tokens_body Stub.nameless_token))]
              "c0de" "https://login.microsoftonline.com/abc/oauth2/token"
              (Stub.string_fields [("access_token", "A"); ("id_token", Stub.nameless_token)])
              (JStr "A") (JStr Stub.nameless_token)
              eq_refl eq_refl eq_refl eq_refl eq_refl) as [Hlogged _].
  specialize (Hlogged Stub.nameless_claims eq_refl).
  rewrite (surjective_pairing (authenticate _ _ _)), Hlogged.
  reflexivity.
Defined.

Lemma non_object_response_rejected_witness :
  fst (authenticate (RT := Stub.array_endpoint) (Stub.azure 1) Stub.callback [])
  = inl TypeError.
Proof.
  erewrite (non_object_response_rejected (RT := Stub.array_endpoint)
              (Stub.azure 1) Stub.callback [] _ "c0de"
              "https://login.microsoftonline.com/abc/oauth2/token" (JArr []));
    first [reflexivity | discriminate].
Defined.

Lemma configured_token_url_used_witness :
  token_url (Stub.azure_configured 3 "https://idp.example.org/token")
  = inr "https://idp.example.org/token"
  /\ requests_of
       (snd (authenticate (RT := Stub.provider Stub.alice_token)
               (Stub.azure_configured 3 "https://idp.example.org/token") Stub.callback []))
     = [exchange_request (RT := Stub.provider Stub.alice_token)
          (Stub.azure_configured 3 "https://idp.example.org/token") Stub.callback
          "c0de" "https://idp.example.org/token"].
Proof.
  destruct (configured_token_url_used (RT := Stub.provider Stub.alice_token)
              (Stub.azure_configured 3 "https://idp.example.org/token") Stub.callback
              "0a1b" [] "c0de" "https://idp.example.org/token" eq_refl eq_refl)
    as (Hurl & Hsent & _).
  split; [exact Hurl | exact Hsent].
Defined.

(** ** Resolved URLs identify the tenant and the version *)

Lemma length_append (a b : string) :
  String.length (a ++ b) = (String.length a + String.length b)%nat.
Proof.
  induction a as [|x a IH]; [reflexivity|].
  rewrite append_cons. cbn [String.length]. now rewrite IH.
Qed.

Lemma append_inj_l (p a b : string) : p ++ a = p ++ b -> a = b.
Proof.
  induction p as [|x p IH]; [now rewrite !append_nil_l|].
  rewrite !append_cons. intros [= H]. now apply IH.
Qed.

(** Two strings that end in suffixes of the same length agree on both
    parts. *)
Lemma append_inj_same_length (a b s s' : string) :
  String.length s = String.length s' ->
  a ++ s = b ++ s' ->
  a = b /\ s = s'.
Proof.
  intros Hlen. revert b. induction a as [|x a IH]; intros [|y b] H.
  - now rewrite !append_nil_l in H.
  - rewrite append_nil_l in H. subst s.
    rewrite length_append in Hlen. cbn [String.length] in Hlen. lia.
  - rewrite append_nil_l in H. subst s'.
    rewrite length_append in Hlen. cbn [String.length] in Hlen. lia.
  - rewrite !append_cons in H. injection H as -> H.
    destruct (IH b H) as [-> ->]. now split.
Qed.

(** A suffix cannot be matched by a longer one that ends differently. *)
Lemma append_suffix_clash (a b x s s' : string) :
  String.length s = String.length s' ->
  s <> s' ->
  a ++ s <> b ++ x ++ s'.
Proof.
  intros Hlen Hne H. rewrite <- append_assoc in H.
  now destruct (append_inj_same_length _ _ _ _ Hlen H).
Qed.

Lemma string_drop_suffix (n : nat) (s : string) :
  exists x, s = x ++ string_drop n s.
Proof.
  revert s. induction n as [|n IH]; intros s; [now exists ""|].
  destruct s as [|a s]; [now exists ""|].
  destruct (IH s) as [x Hx]. exists (String a x).
  cbn [string_drop]. rewrite append_cons. now rewrite <- Hx.
Qed.

Lemma append_longer_suffix_clash (a b s s' : string) :
  String.length (string_drop (String.length s' - String.length s) s') = String.length s ->
  string_drop (String.length s' - String.length s) s' <> s ->
  a ++ s <> b ++ s'.
Proof.
  intros Hlen Hne H.
  destruct (string_drop_suffix (String.length s' - String.length s) s') as [x Hx].
  rewrite Hx in H. revert H. apply append_suffix_clash; [now rewrite Hlen|].
  intros E. now apply Hne.
Qed.

(** The four path suffixes never overlap: a URL ends in one of them for
    one tenant only. *)
Lemma resolved_suffix_inj (t t' S S' : string) :
  In S ["/oauth2/authorize"; "/oauth2/v2.0/authorize"; "/oauth2/token"; "/oauth2/v2.0/token"] ->
  In S' ["/oauth2/authorize"; "/oauth2/v2.0/authorize"; "/oauth2/token"; "/oauth2/v2.0/token"] ->
  t ++ S = t' ++ S' ->
  t = t' /\ S = S'.
Proof.
  intros HS HS' H.
  cbn [In] in HS, HS'.
  destruct HS as [<-|[<-|[<-|[<-|[]]]]], HS' as [<-|[<-|[<-|[<-|[]]]]];
    first
      [ now apply append_inj_same_length in H as [-> _]
      | exfalso; revert H; apply append_longer_suffix_clash;
        [reflexivity | discriminate]
      | exfalso; symmetry in H; revert H; apply append_longer_suffix_clash;
        [reflexivity | discriminate] ].
Qed.

(** X10. A resolved URL identifies its tenant and its API version: two
    authenticators whose authorize URLs (or token URLs) coincide have the
    same tenant and the same version, and an authorize URL is never a token
    URL, for no pair of tenants. *)
Theorem url_identifies_tenant_and_version (self self' : AzureAdOAuthenticator)
    (u : string) :
  (_authorize_url_default self = inr u ->
   _authorize_url_default self' = inr u ->
   tenant_id self = tenant_id self'
   /\ access_token_version self = access_token_version self')
  /\ (_token_url_default self = inr u ->
      _token_url_default self' = inr u ->
      tenant_id self = tenant_id self'
      /\ access_token_version self = access_token_version self')
  /\ (_authorize_url_default self = inr u ->
      _token_url_default self' = inr u ->
      False).
Proof.
  unfold _authorize_url_default, _token_url_default.
  split; [|split]; intros H H';
    destruct (Z.eqb_spec (access_token_version self) 1) as [V1|_];
    try destruct (Z.eqb_spec (access_token_version self) 2) as [V2|_];
    try discriminate H;
    destruct (Z.eqb_spec (access_token_version self') 1) as [V1'|_];
    try destruct (Z.eqb_spec (access_token_version self') 2) as [V2'|_];
    try discriminate H';
    injection H as <-; injection H' as H';
    apply append_inj_l, resolved_suffix_inj in H' as [Ht HS];
    cbn [In]; auto 6;
    try discriminate HS;
    split; congruence.
Qed.

Lemma url_identifies_tenant_and_version_witness :
  tenant_id (Stub.azure 2) = tenant_id (with_version 2 (Stub.azure 1))
  /\ access_token_version (Stub.azure 2) = access_token_version (with_version 2 (Stub.azure 1)).
Proof.
  destruct (url_identifies_tenant_and_version (Stub.azure 2) (with_version 2 (Stub.azure 1))
              "https://login.microsoftonline.com/abc/oauth2/v2.0/authorize")
    as (Hauthorize & _ & _).
  exact (Hauthorize eq_refl eq_refl).
Defined.

(** ** The form body on the wire *)

Lemma list_ascii_of_string_app (a b : string) :
  list_ascii_of_string (a ++ b)
  = (list_ascii_of_string a ++ list_ascii_of_string b)%list.
Proof.
  induction a as [|x a IH]; [reflexivity|].
  rewrite append_cons. cbn [list_ascii_of_string]. now rewrite IH.
Qed.

Lemma all_in_app (alphabet a b : string) :
  all_in alphabet (a ++ b) = all_in alphabet a && all_in alphabet b.
Proof. unfold all_in. now rewrite list_ascii_of_string_app, forallb_app. Qed.

Lemma plus_byte_wire (a : ascii) : all_in wire_alphabet (plus_byte a) = true.
Proof. each_byte a; reflexivity. Qed.

Lemma plus_encode_wire (s : string) : all_in wire_alphabet (plus_encode s) = true.
Proof.
  induction s as [|a s IH]; [reflexivity|].
  cbn [plus_encode]. now rewrite all_in_app, plus_byte_wire, IH.
Qed.

Lemma join_wire (pieces : list string) :
  Forall (fun piece => all_in wire_alphabet piece = true) pieces ->
  all_in wire_alphabet (join "&" pieces) = true.
Proof.
  induction 1 as [|piece pieces Hp _ IH]; [reflexivity|].
  cbn [join]. destruct pieces as [|next pieces]; [exact Hp|].
  now rewrite !all_in_app, Hp, IH.
Qed.

(** X11. Whatever bytes the names and values of a form contain, the body
    [urlencode] produces consists only of ASCII letters, digits, [_.-~],
    the escapes [%] and [+] and the separators [=] and [&]: no space, no
    control character and no non-ASCII byte reaches the wire. *)
Theorem urlencode_wire_alphabet (params : form) :
  all_in wire_alphabet (urlencode params) = true.
Proof.
  rewrite urlencode_join. apply join_wire.
  apply Forall_forall. intros piece Hin.
  apply list_elem_of_In, in_map_iff in Hin as ([k v] & <- & _).
  unfold encode_pair. cbn [fst snd].
  now rewrite !all_in_app, !plus_encode_wire.
Qed.

(** X12. For forms whose names contain no [=], reading the encoded body
    back yields exactly the name/value pairs that were encoded, in order;
    hence two such forms with the same body stand for the same pairs. *)
Theorem form_body_round_trip (params : form) :
  Forall (fun p => ascii_in "=" (fst p) = false) params ->
  form_decode (urlencode params) = form_fields params
  /\ forall other : form,
       Forall (fun p => ascii_in "=" (fst p) = false) other ->
       urlencode other = urlencode params ->
       form_fields other = form_fields params.
Proof.
  intros Hkeys. split; [now apply form_decode_urlencode|].
  intros other Hother Hbody.
  rewrite <- (form_decode_urlencode other Hother), Hbody.
  now apply form_decode_urlencode.
Qed.

Lemma form_body_round_trip_witness :
  form_decode (urlencode [("code", FStr "a&b=c d"); ("scope", FSeq ["x/y"; ""])])
  = [("code", "a&b=c d"); ("scope", "x/y"); ("scope", "")].
Proof.
  apply (form_body_round_trip [("code", FStr "a&b=c d"); ("scope", FSeq ["x/y"; ""])]).
  repeat constructor.
Defined.

(** ** Two calls on one instance *)

Section TwoCalls.

Context `{RT : Runtime}.

Lemma same_settings_refl (self : AzureAdOAuthenticator) : same_settings self self.
Proof. repeat split. Qed.

Lemma same_settings_trans (a b c : AzureAdOAuthenticator) :
  same_settings a b -> same_settings b c -> same_settings a c.
Proof.
  intros (E1 & V1 & I1 & S1 & T1 & U1 & K1) (E2 & V2 & I2 & S2 & T2 & U2 & K2).
  repeat split; congruence.
Qed.

(** Storing the value a trait already reads as changes no reading. *)
Lemma set_tenant_id_same (self : AzureAdOAuthenticator) :
  same_settings self (Stateful.set_tenant_id (tenant_id self) self).
Proof.
  unfold same_settings, token_url, _token_url_default, tenant_id.
  destruct self as [env v cid cs [t|] ucl au tu]; cbn; repeat split.
Qed.

Lemma set_username_claim_same (self : AzureAdOAuthenticator) :
  same_settings self (Stateful.set_username_claim (username_claim self) self).
Proof.
  unfold same_settings, token_url, _token_url_default, tenant_id, username_claim.
  destruct self as [env v cid cs t [ucl|] au tu]; cbn; repeat split.
Qed.

Lemma set_token_url_same (self : AzureAdOAuthenticator) (url : string) :
  token_url self = inr url ->
  same_settings self (Stateful.set_token_url url self).
Proof.
  intros Hurl. unfold same_settings. repeat split.
  unfold token_url at 1. cbn. now rewrite Hurl.
Qed.

Lemma stateful_tenant_id (self : AzureAdOAuthenticator) (w : World) :
  exists self',
    Stateful.tenant_id (self, w) = (inr (tenant_id self), (self', w))
    /\ same_settings self self'.
Proof.
  unfold Stateful.tenant_id, Stateful.read_trait, Stateful.bind, Stateful.attribute,
    Stateful.store, Stateful.ret. cbn [fst snd].
  destruct (tenant_id_config self) as [t|] eqn:Ht.
  - exists self. split; [|apply same_settings_refl].
    unfold tenant_id. now rewrite Ht.
  - exists (Stateful.set_tenant_id (tenant_id self) self).
    split; [|apply set_tenant_id_same].
    unfold tenant_id. now rewrite Ht.
Qed.

Lemma stateful_username_claim (self : AzureAdOAuthenticator) (w : World) :
  exists self',
    Stateful.username_claim (self, w) = (inr (username_claim self), (self', w))
    /\ same_settings self self'.
Proof.
  unfold Stateful.username_claim, Stateful.read_trait, Stateful.bind, Stateful.attribute,
    Stateful.store, Stateful.ret. cbn [fst snd].
  destruct (username_claim_config self) as [c|] eqn:Hc.
  - exists self. split; [|apply same_settings_refl].
    unfold username_claim. now rewrite Hc.
  - exists (Stateful.set_username_claim (username_claim self) self).
    split; [|apply set_username_claim_same].
    unfold username_claim. now rewrite Hc.
Qed.

Lemma stateful_token_url_default (self : AzureAdOAuthenticator) (w : World) :
  exists self',
    Stateful._token_url_default (self, w) = (_token_url_default self, (self', w))
    /\ same_settings self self'.
Proof.
  unfold Stateful._token_url_default, _token_url_default.
  unfold Stateful.bind at 1. unfold Stateful.attribute at 1. cbn [fst].
  destruct (access_token_version self =? 1).
  { destruct (stateful_tenant_id self w) as (self' & Ht & Hsame).
    exists self'. split; [|exact Hsame].
    unfold Stateful.bind. now rewrite Ht. }
  destruct (access_token_version self =? 2).
  { destruct (stateful_tenant_id self w) as (self' & Ht & Hsame).
    exists self'. split; [|exact Hsame].
    unfold Stateful.bind. now rewrite Ht. }
  exists self. split; [reflexivity | apply same_settings_refl].
Qed.

Lemma stateful_token_url (self : AzureAdOAuthenticator) (w : World) :
  exists self',
    Stateful.token_url (self, w) = (token_url self, (self', w))
    /\ same_settings self self'.
Proof.
  unfold Stateful.token_url, Stateful.read_trait.
  unfold Stateful.bind at 1. unfold Stateful.attribute at 1. cbn [fst].
  destruct (token_url_config self) as [u|] eqn:Hcfg.
  - exists self. split; [|apply same_settings_refl].
    unfold token_url. now rewrite Hcfg.
  - destruct (stateful_token_url_default self w) as (self1 & Hd & Hsame).
    assert (Hread : token_url self = _token_url_default self)
      by (unfold token_url; now rewrite Hcfg).
    unfold Stateful.bind at 1. rewrite Hd, Hread.
    destruct (_token_url_default self) as [e|url] eqn:Hu.
    + exists self1. split; [reflexivity | exact Hsame].
    + exists (Stateful.set_token_url url self1). split; [reflexivity|].
      apply (same_settings_trans _ self1); [exact Hsame|].
      apply set_token_url_same.
      destruct Hsame as (_ & _ & _ & _ & _ & _ & ->). now rewrite Hread.
Qed.

End TwoCalls.

Section TwoCallsResult.

Context `{RT : Runtime}.

(** With the instance threaded through, a call returns what [authenticate]
    returns and leaves the trace [authenticate] leaves; the instance it
    leaves behind reads as the one it found. *)
Lemma stateful_authenticate (self : AzureAdOAuthenticator) (handler : Handler) (w : World) :
  exists self',
    Stateful.authenticate handler (self, w)
    = (fst (authenticate self handler w), (self', snd (authenticate self handler w)))
    /\ same_settings self self'.
Proof.
  rewrite authenticate_steps. unfold Stateful.authenticate.
  unfold Stateful.bind at 1. unfold Stateful.lift at 1.
  destruct (get_argument handler "code") as [e|code].
  { exists self. split; [reflexivity | apply same_settings_refl]. }
  unfold Stateful.bind at 1. unfold Stateful.attribute at 1. cbn [fst].
  unfold Stateful.bind at 1. unfold Stateful.attribute at 1. cbn [fst].
  unfold Stateful.bind at 1.
  destruct (stateful_token_url self w) as (self1 & Hurl & Hsame1). rewrite Hurl.
  destruct (token_url self) as [e|url].
  { exists self1. split; [reflexivity | exact Hsame1]. }
  fold (exchange_request self handler code url).
  unfold Stateful.bind at 1. unfold Stateful.on_world at 1. cbn [fst snd].
  destruct (fetch (exchange_request self handler code url) w) as [[e|resp_json] w1].
  { exists self1. split; [reflexivity | exact Hsame1]. }
  unfold Stateful.bind at 1. unfold Stateful.lift at 1.
  destruct (py_getitem resp_json "access_token") as [e|access_token].
  { exists self1. split; [reflexivity | exact Hsame1]. }
  unfold Stateful.bind at 1. unfold Stateful.lift at 1.
  destruct (py_getitem resp_json "id_token") as [e|id_token].
  { exists self1. split; [reflexivity | exact Hsame1]. }
  unfold Stateful.bind at 1. unfold Stateful.attribute at 1. cbn [fst].
  assert (Hkw : decode_kwargs self1 = decode_kwargs self).
  { unfold decode_kwargs. destruct Hsame1 as (_ & _ & -> & _). reflexivity. }
  rewrite Hkw.
  unfold Stateful.bind at 1. unfold Stateful.lift at 1.
  destruct (jwt_decode id_token (decode_kwargs self)) as [e|decoded].
  { exists self1. split; [reflexivity | exact Hsame1]. }
  unfold Stateful.bind at 1. unfold Stateful.on_world at 1, log_warning at 1.
  cbn [fst snd]. cbv zeta.
  unfold Stateful.bind at 1.
  destruct (stateful_username_claim self1
              (w1 ++ [EvLogWarning (py_repr (JObj decoded))])%list)
    as (self2 & Hclaim & Hsame2).
  rewrite Hclaim.
  assert (Hc : username_claim self1 = username_claim self)
    by (now destruct Hsame1 as (_ & _ & _ & _ & _ & -> & _)).
  rewrite Hc.
  unfold Stateful.bind at 1. unfold Stateful.lift at 1.
  exists self2. split; [|now apply (same_settings_trans _ self1)].
  destruct (dict_getitem decoded (username_claim self)) as [e|name]; [reflexivity|].
  cbn [fst snd]. unfold Stateful.ret.
  now rewrite <- (built_record name access_token decoded).
Qed.

(** [authenticate] reads the instance only through its settings. *)
Lemma authenticate_same_settings (self self' : AzureAdOAuthenticator)
    (handler : Handler) (w : World) :
  same_settings self self' ->
  authenticate self' handler w = authenticate self handler w.
Proof.
  intros (_ & _ & Hid & Hsecret & _ & Hclaim & Hurl).
  rewrite !authenticate_steps, Hurl, Hclaim.
  assert (Hreq : forall code url,
            exchange_request self' handler code url = exchange_request self handler code url).
  { intros code url. unfold exchange_request. now rewrite Hid, Hsecret. }
  assert (Hkw : decode_kwargs self' = decode_kwargs self).
  { unfold decode_kwargs. now rewrite Hid. }
  destruct (get_argument handler "code") as [e|code]; [reflexivity|].
  destruct (token_url self) as [e|url]; [reflexivity|].
  now rewrite Hreq, Hkw.
Qed.

(** The result of a run depends on the world only through what the
    exchange it performs yields. *)
Lemma authenticate_depends_on_exchange (self : AzureAdOAuthenticator) (handler : Handler)
    (w w' : World) :
  (forall code url,
      get_argument handler "code" = inr code ->
      token_url self = inr url ->
      fst (fetch (exchange_request self handler code url) w')
      = fst (fetch (exchange_request self handler code url) w)) ->
  fst (authenticate self handler w') = fst (authenticate self handler w).
Proof.
  intros Hsame. rewrite !authenticate_steps.
  destruct (get_argument handler "code") as [e|code]; [reflexivity|].
  destruct (token_url self) as [e|url]; [reflexivity|].
  specialize (Hsame code url eq_refl eq_refl).
  destruct (fetch _ w') as [r' w1'], (fetch _ w) as [r w1].
  cbn [fst] in Hsame. subst r'.
  destruct r as [e|resp_json]; [reflexivity|].
  destruct (py_getitem resp_json "access_token") as [e|access_token]; [reflexivity|].
  destruct (py_getitem resp_json "id_token") as [e|id_token]; [reflexivity|].
  destruct (jwt_decode id_token (decode_kwargs self)) as [e|decoded]; [reflexivity|].
  cbv zeta.
  now destruct (dict_getitem decoded (username_claim self)).
Qed.

(** C8. Two calls of [authenticate] on one instance for the same callback
    (the same authorization code), the second one finding the instance and
    the trace as the first one left them, return the same result (the same
    identity record, or the same error) whenever the exchange request the
    call sends is answered the second time as it was the first time. What
    the first call stores on the instance (the trait values it read for the
    first time) does not enter the second result. *)
Theorem authenticate_twice (self : AzureAdOAuthenticator) (handler : Handler) (w : World) :
  let first_run := Stateful.authenticate handler (self, w) in
  let second_run := Stateful.authenticate handler (snd first_run) in
  (forall code url,
      get_argument handler "code" = inr code ->
      token_url self = inr url ->
      fst (fetch (exchange_request self handler code url) (snd (snd first_run)))
      = fst (fetch (exchange_request self handler code url) w)) ->
  fst second_run = fst first_run.
Proof.
  intros first_run second_run Hsame. subst second_run first_run.
  destruct (stateful_authenticate self handler w) as (self1 & Hfirst & Hsame1).
  rewrite Hfirst in *. cbn [fst snd] in *.
  destruct (stateful_authenticate self1 handler (snd (authenticate self handler w)))
    as (self2 & Hsecond & _).
  rewrite Hsecond. cbn [fst].
  rewrite (authenticate_same_settings self self1) by exact Hsame1.
  apply authenticate_depends_on_exchange. exact Hsame.
Qed.

End TwoCallsResult.

Lemma authenticate_twice_witness :
  fst (snd (Stateful.authenticate (RT := Stub.provider Stub.alice_token)
              Stub.callback (Stub.azure 1, [])))
  = mkAuthenticator ∅ 1 "client1" "s3cret" (Some "abc") (Some "name") None
      (Some "https://login.microsoftonline.com/abc/oauth2/token")
  /\ fst (Stateful.authenticate (RT := Stub.provider Stub.alice_token) Stub.callback
            (snd (Stateful.authenticate (RT := Stub.provider Stub.alice_token)
                    Stub.callback (Stub.azure 1, []))))
     = inr (identity_record (JStr "alice") (JStr "A") Stub.alice_claims)
  /\ fst (Stateful.authenticate (RT := Stub.provider Stub.alice_token) Stub.callback
            (snd (Stateful.authenticate (RT := Stub.provider Stub.alice_token)
                    Stub.callback (Stub.azure 1, []))))
     = fst (Stateful.authenticate (RT := Stub.provider Stub.alice_token)
              Stub.callback (Stub.azure 1, [])).
Proof.
  split; [reflexivity|]. split; [reflexivity|].
  apply (authenticate_twice (RT := Stub.provider Stub.alice_token)
           (Stub.azure 1) Stub.callback []).
  intros code url _ _. reflexivity.
Defined.
